(** * KIIT SmartBus: the bus registry, its mutation routes and the socket relay

    A shallow embedding of
      - [backend/src/models/Bus.js]   (schema, methods, statics, pre-save hook),
      - [backend/src/routes/buses.js] (the HTTP routes over the Bus collection),
      - [backend/src/server.js]       (the socket.io rooms and relays),
    followed by the properties of the fleet-state engine checked against it.

    Conventions of the embedding.
      - A JavaScript Number that the validators force to be an integer
        ([isInt], schema defaults) is a [Z]; every other Number is a binary64
        [float], compared with the IEEE comparisons JavaScript uses.
      - A field that may be [undefined] is an [option].
      - Enumerated strings stay strings, checked against the lists the
        source checks them against.
      - A MongoDB collection is a finite map from [_id] to document; the
        socket.io server is a map from room name to the sockets in it.
        An id handed to [findById] is a well-formed ObjectId (a malformed
        one makes [findById] throw and is outside the model).
      - [new Date()] is an explicit clock reading handed to the handler.
      - A handler returns its HTTP reply together with the next world;
        an exception caught by the handler's [catch] is the 500 reply. *)

From Stdlib Require Import ZArith QArith Qabs Floats Lia.
From Stdlib Require Import Qround.
From stdpp Require Import gmap strings list sorting.

Set Warnings "-inexact-float".

Local Open Scope string_scope.
Local Open Scope Z_scope.

(** ** JavaScript values *)

Module Js.

(** [Number(n)] for an integer [n]: the nearest binary64 value. *)
Definition of_Z (z : Z) : float :=
  SF2Prim (binary_normalize prec emax z 0 false).

(** Truthiness of an optional integer: [undefined] and [0] are falsy. *)
Definition truthy (v : option Z) : bool :=
  match v with
  | Some n => negb (n =? 0)
  | None => false
  end.

(** [a || b] where [a] may be undefined and [b] is a number. *)
Definition or_else (a : option Z) (b : Z) : Z :=
  match a with
  | Some n => if truthy a then n else b
  | None => b
  end.

(** Truthiness of an optional string: [undefined] and [''] are falsy. *)
Definition truthy_str (v : option string) : bool :=
  match v with
  | Some s => negb (String.eqb s "")
  | None => false
  end.

(** express-validator's [isIn]. *)
Definition isIn (s : string) (allowed : list string) : bool :=
  existsb (String.eqb s) allowed.

(** express-validator's [isFloat({min, max})] on a parsed number. *)
Definition isFloat_between (lo hi v : float) : bool :=
  ((lo <=? v) && (v <=? hi))%float.

(** express-validator's [isFloat({min})]. *)
Definition isFloat_min (lo v : float) : bool := (lo <=? v)%float.

(** express-validator's [isInt({min})] on a parsed integer. *)
Definition isInt_min (lo v : Z) : bool := lo <=? v.

End Js.

(** ** models/Bus.js *)

Abbreviation ObjectId := string.

Module BusModel.

Definition destinations : list string :=
  ["Campus 25"; "Campus 6"; "Campus 15"; "Main Campus"; "Other"].
Definition statuses : list string :=
  ["active"; "inactive"; "maintenance"; "offline"].
Definition seatTiers : list string := ["Empty"; "Few Seats"; "Full"].

(** The fields of [busSchema] the routes read or write
    ([estimatedArrival] and the [timestamps] pair are never touched by
    them and are left out). [coordinates] is [[longitude, latitude]]. *)
Record Bus := mkBus {
  busNumber : string;
  driverId : ObjectId;
  coordinates : list float;
  destination : string;
  status : string;
  seatAvailability : string;
  capacity : Z;
  currentPassengers : Z;
  route : option ObjectId;
  lastUpdated : Z;
  isActive : bool;
  speed : float;
  heading : float;
  notes : option string
}.

(** Field assignments [this.f = v]. *)
Definition set_coordinates (v : list float) (b : Bus) : Bus :=
  mkBus (busNumber b) (driverId b) v (destination b) (status b)
    (seatAvailability b) (capacity b) (currentPassengers b) (route b)
    (lastUpdated b) (isActive b) (speed b) (heading b) (notes b).
Definition set_destination (v : string) (b : Bus) : Bus :=
  mkBus (busNumber b) (driverId b) (coordinates b) v (status b)
    (seatAvailability b) (capacity b) (currentPassengers b) (route b)
    (lastUpdated b) (isActive b) (speed b) (heading b) (notes b).
Definition set_status (v : string) (b : Bus) : Bus :=
  mkBus (busNumber b) (driverId b) (coordinates b) (destination b) v
    (seatAvailability b) (capacity b) (currentPassengers b) (route b)
    (lastUpdated b) (isActive b) (speed b) (heading b) (notes b).
Definition set_seatAvailability (v : string) (b : Bus) : Bus :=
  mkBus (busNumber b) (driverId b) (coordinates b) (destination b) (status b)
    v (capacity b) (currentPassengers b) (route b)
    (lastUpdated b) (isActive b) (speed b) (heading b) (notes b).
Definition set_currentPassengers (v : Z) (b : Bus) : Bus :=
  mkBus (busNumber b) (driverId b) (coordinates b) (destination b) (status b)
    (seatAvailability b) (capacity b) v (route b)
    (lastUpdated b) (isActive b) (speed b) (heading b) (notes b).
Definition set_lastUpdated (v : Z) (b : Bus) : Bus :=
  mkBus (busNumber b) (driverId b) (coordinates b) (destination b) (status b)
    (seatAvailability b) (capacity b) (currentPassengers b) (route b)
    v (isActive b) (speed b) (heading b) (notes b).
Definition set_isActive (v : bool) (b : Bus) : Bus :=
  mkBus (busNumber b) (driverId b) (coordinates b) (destination b) (status b)
    (seatAvailability b) (capacity b) (currentPassengers b) (route b)
    (lastUpdated b) v (speed b) (heading b) (notes b).
Definition set_speed (v : float) (b : Bus) : Bus :=
  mkBus (busNumber b) (driverId b) (coordinates b) (destination b) (status b)
    (seatAvailability b) (capacity b) (currentPassengers b) (route b)
    (lastUpdated b) (isActive b) v (heading b) (notes b).
Definition set_heading (v : float) (b : Bus) : Bus :=
  mkBus (busNumber b) (driverId b) (coordinates b) (destination b) (status b)
    (seatAvailability b) (capacity b) (currentPassengers b) (route b)
    (lastUpdated b) (isActive b) (speed b) v (notes b).
Definition set_notes (v : option string) (b : Bus) : Bus :=
  mkBus (busNumber b) (driverId b) (coordinates b) (destination b) (status b)
    (seatAvailability b) (capacity b) (currentPassengers b) (route b)
    (lastUpdated b) (isActive b) (speed b) (heading b) v.

(** A document loaded from the collection: its current field values and
    the one modification flag a hook of this schema reads,
    [isModified('currentPassengers')]. *)
Record Doc := mkDoc {
  fields : Bus;
  passengersModified : bool
}.

(** [Bus.findById] hands out an unmodified document. *)
Definition load (b : Bus) : Doc := mkDoc b false.

(** [new Bus({...})]: on a new document every path that is set counts as
    modified; [currentPassengers] comes from its default and does not. *)
Definition fresh (b : Bus) : Doc := mkDoc b false.

Definition assign (f : Bus -> Bus) (d : Doc) : Doc :=
  mkDoc (f (fields d)) (passengersModified d).

(** Assigning [currentPassengers] on a loaded document marks the path
    modified only when the value differs from the one it holds. *)
Definition assign_currentPassengers (v : Z) (d : Doc) : Doc :=
  mkDoc (set_currentPassengers v (fields d))
        (passengersModified d || negb (v =? currentPassengers (fields d))).

(** The [coordinates] validator of the schema. *)
Definition valid_coordinates (v : list float) : bool :=
  match v with
  | [v0; v1] =>
      ((-180 <=? v0) && (v0 <=? 180) && (-90 <=? v1) && (v1 <=? 90))%float
  | _ => false
  end.

Definition valid_notes (n : option string) : bool :=
  match n with
  | Some s => (String.length s <=? 500)%nat
  | None => true
  end.

(** Schema validation, run by [save] before any pre-save hook:
    [required], [enum], [min], [max], [maxlength] and the custom validator. *)
Definition validate (b : Bus) : bool :=
  negb (String.eqb (busNumber b) "")
  && negb (String.eqb (driverId b) "")
  && valid_coordinates (coordinates b)
  && Js.isIn (destination b) destinations
  && Js.isIn (status b) statuses
  && Js.isIn (seatAvailability b) seatTiers
  && (1 <=? capacity b) && (capacity b <=? 100)
  && (0 <=? currentPassengers b)
  && (0 <=? speed b)%float
  && (0 <=? heading b)%float && (heading b <=? 360)%float
  && valid_notes (notes b).

(** [const percentage = (this.currentPassengers / this.capacity) * 100],
    in binary64 as JavaScript computes it. *)
Definition percentage (currentPassengers capacity : Z) : float :=
  (Js.of_Z currentPassengers / Js.of_Z capacity * 100)%float.

(** The three-way choice of the pre-save hook (the State Derivation). *)
Definition deriveTier (currentPassengers capacity : Z) : string :=
  let p := percentage currentPassengers capacity in
  if (p =? 0)%float then "Empty"
  else if (90 <=? p)%float then "Full"
  else "Few Seats".

(** [busSchema.pre('save', ...)]. *)
Definition pre_save (d : Doc) : Bus :=
  if passengersModified d then
    set_seatAvailability
      (deriveTier (currentPassengers (fields d)) (capacity (fields d)))
      (fields d)
  else fields d.

(** [this.save()]: validation, then the hook; [None] is the rejected
    promise (a ValidationError). The result is the document written to
    the collection, which is also what the in-memory document then holds. *)
Definition save (d : Doc) : option Bus :=
  if validate (fields d) then Some (pre_save d) else None.

(** The assignments of [busSchema.methods.updateLocation]; the route
    supplies all four arguments, so the parameter defaults never apply. *)
Definition updateLocation_assign (now : Z)
    (latitude longitude speed heading : float) (this : Doc) : Doc :=
  assign (set_lastUpdated now)
    (assign (set_heading heading)
      (assign (set_speed speed)
        (assign (set_coordinates [longitude; latitude]) this))).

(** [busSchema.methods.updateLocation]: assign, then [return this.save()]. *)
Definition updateLocation (now : Z) (latitude longitude speed heading : float)
    (this : Doc) : option Bus :=
  save (updateLocation_assign now latitude longitude speed heading this).

(** The assignments of [busSchema.methods.updateStatus]. *)
Definition updateStatus_assign (now : Z) (status seatAvailability : string)
    (currentPassengers : option Z) (this : Doc) : Doc :=
  let d1 := assign (set_status status) this in
  let d2 := assign (set_seatAvailability seatAvailability) d1 in
  let d3 :=
    assign_currentPassengers
      (Js.or_else currentPassengers (BusModel.currentPassengers (fields d2))) d2 in
  assign (set_lastUpdated now) d3.

(** [busSchema.methods.updateStatus]: assign, then [return this.save()]. *)
Definition updateStatus (now : Z) (status seatAvailability : string)
    (currentPassengers : option Z) (this : Doc) : option Bus :=
  save (updateStatus_assign now status seatAvailability currentPassengers this).

(** [busSchema.statics.findNearby]. The collection is searched with
    MongoDB's [$near]: the documents within [$maxDistance] metres of the
    point that also match the other two conditions, nearest first. The
    distance on the sphere is MongoDB's and is a parameter here. *)
Section Near.
Variable geoDistance : list float -> list float -> Q.

Definition nearer (origin : list float) (a b : Bus) : Prop :=
  (geoDistance origin (coordinates a) <= geoDistance origin (coordinates b))%Q.

#[export] Instance nearer_dec origin : RelDecision (nearer origin).
Proof.
  intros a b. unfold nearer.
  destruct (Qle_bool (geoDistance origin (coordinates a))
                     (geoDistance origin (coordinates b))) eqn:E.
  - left. by apply Qle_bool_iff.
  - right. intros H. apply Qle_bool_iff in H. congruence.
Defined.

Definition near_match (origin : list float) (maxDistance : Z) (b : Bus) : bool :=
  Qle_bool (geoDistance origin (coordinates b)) (inject_Z maxDistance)
  && String.eqb (status b) "active"
  && Bool.eqb (isActive b) true.

Definition findNearby (coordinates : list float) (maxDistance : Z)
    (collection : gmap ObjectId Bus) : list Bus :=
  merge_sort (nearer coordinates)
    (List.filter (near_match coordinates maxDistance)
       (snd <$> map_to_list collection)).
End Near.

End BusModel.


(** ** server.js: the socket.io server, and the state of the whole system *)

Module Server.
Import BusModel.

(** What travels in an emitted event. The two routes build their own
    objects; a socket relay forwards the client's [data] untouched. *)
Inductive Payload :=
| LocationUpdated (busId : ObjectId) (latitude longitude speed heading : float)
    (timestamp : Z)
| StatusUpdated (busId : ObjectId) (status seatAvailability : string)
    (currentPassengers : Z) (destination : string) (timestamp : Z)
| Relayed (busId : string) (body : string).

(** One [io.to(room).emit(event, data)], with the sockets that were in
    the room when it happened. *)
Record Emission := mkEmission {
  em_room : string;
  em_event : string;
  em_data : Payload;
  em_receivers : gset string
}.

(** The [role] and [assignedBus] paths of a User document. *)
Record UserDoc := mkUserDoc {
  u_role : string;
  assignedBus : option ObjectId
}.

Record World := mkWorld {
  buses : gmap ObjectId Bus;          (* the Bus collection *)
  users : gmap ObjectId UserDoc;      (* the User collection *)
  rooms : gmap string (gset string);  (* socket.io rooms *)
  sent : list Emission;               (* every emit so far, oldest first *)
  commits : list (ObjectId * Bus)     (* every successful save, oldest first *)
}.

Definition bus_room (busId : string) : string := "bus-" +:+ busId.

Definition members (room : string) (w : World) : gset string :=
  default ∅ (rooms w !! room).

(** [io.to(room).emit(event, data)]. *)
Definition emit (room event : string) (data : Payload) (w : World) : World :=
  mkWorld (buses w) (users w) (rooms w)
    (sent w ++ [mkEmission room event data (members room w)])
    (commits w).

(** The write a successful [save] makes. *)
Definition store (busId : ObjectId) (b : Bus) (w : World) : World :=
  mkWorld (<[busId := b]> (buses w)) (users w) (rooms w) (sent w)
    (commits w ++ [(busId, b)]).

(** [socket.on('join-bus-tracking', busId => socket.join(`bus-${busId}`))]. *)
Definition join_bus_tracking (socket busId : string) (w : World) : World :=
  mkWorld (buses w) (users w)
    (<[bus_room busId := {[socket]} ∪ members (bus_room busId) w]> (rooms w))
    (sent w) (commits w).

(** [socket.on('update-bus-location', data => io.to(...).emit(..., data))]. *)
Definition update_bus_location (busId body : string) (w : World) : World :=
  emit (bus_room busId) "bus-location-updated" (Relayed busId body) w.

(** [socket.on('update-bus-status', data => io.to(...).emit(..., data))]. *)
Definition update_bus_status (busId body : string) (w : World) : World :=
  emit (bus_room busId) "bus-status-updated" (Relayed busId body) w.

(** [socket.on('disconnect')] only logs; socket.io itself takes the
    socket out of every room. *)
Definition disconnect (socket : string) (w : World) : World :=
  mkWorld (buses w) (users w) ((fun s => s ∖ {[socket]}) <$> rooms w)
    (sent w) (commits w).

(** The events a socket has been sent. *)
Definition received (socket : string) (w : World) : list Emission :=
  filter (fun e => socket ∈ em_receivers e) (sent w).

End Server.

(** ** routes/buses.js *)

Module Routes.
Import BusModel Server.

(** [req.user], attached by the [auth] middleware before a handler runs.
    The middleware itself is not part of these sources; the handlers below
    are the functions that run once it has let the request through. *)
Record User := mkUser {
  id : string;
  role : string
}.

(** The replies of the mutation routes. 400 is the specification's
    ValidationError, 403 its PermissionDenied, 404 its NotFound. *)
Inductive Reply :=
| Ok200 (bus : Bus)        (* res.json({ message, bus }) *)
| Created201 (bus : Bus)   (* res.status(201).json(bus) *)
| Deactivated200           (* res.json({ message }) of DELETE *)
| BadRequest400            (* validation errors *)
| Forbidden403
| NotFound404
| ServerError500.          (* the handler's catch *)

(** Request bodies after JSON parsing. A field is [None] when it is
    missing or is not of the shape its validator parses (not a number,
    not an integer, not a Mongo id). *)
Record NewBusBody := mkNewBusBody {
  nb_busNumber : option string;
  nb_driverId : option ObjectId;
  nb_capacity : option Z;
  nb_destination : option string;
  nb_route : option ObjectId
}.

Record LocationBody := mkLocationBody {
  lb_latitude : option float;
  lb_longitude : option float;
  lb_speed : option float;
  lb_heading : option float
}.

Record StatusBody := mkStatusBody {
  sb_status : option string;
  sb_seatAvailability : option string;
  sb_currentPassengers : option Z;
  sb_destination : option string;
  sb_notes : option string
}.

(** A required field: present and accepted by its check. *)
Definition required {A} (check : A -> bool) (v : option A) : bool :=
  match v with
  | Some x => check x
  | None => false
  end.

(** [.optional()]: an undefined field is skipped. *)
Definition optional {A} (check : A -> bool) (v : option A) : bool :=
  match v with
  | Some x => check x
  | None => true
  end.

(** *** POST / *)

Definition valid_new_bus (body : NewBusBody) : bool :=
  required (fun s => negb (String.eqb s "")) (nb_busNumber body)
  && required (fun _ => true) (nb_driverId body)
  && required (fun c => (1 <=? c) && (c <=? 100)) (nb_capacity body)
  && required (fun d => Js.isIn d destinations) (nb_destination body).

(** [Bus.findOne({ busNumber })] finds something. *)
Definition busNumber_taken (n : string) (w : World) : bool :=
  existsb (fun kv => String.eqb (busNumber (snd kv)) n) (map_to_list (buses w)).

(** [new Bus({ busNumber, driverId, capacity, destination, route,
    currentLocation: initialLocation })] with the schema defaults. *)
Definition new_bus (now : Z) (busNumber : string) (driverId : ObjectId)
    (capacity : Z) (destination : string) (route : option ObjectId) : Bus :=
  mkBus busNumber driverId [85.8189%float; 20.2961%float] destination
    "inactive" "Empty" capacity 0 route now true 0%float 0%float None.

Definition set_assignedBus (driverId busId : ObjectId) (w : World) : World :=
  mkWorld (buses w)
    (alter (fun u => mkUserDoc (u_role u) (Some busId)) driverId (users w))
    (rooms w) (sent w) (commits w).

(** [newId] is the [_id] MongoDB gives the new document; inserting under
    an [_id] already in use is a duplicate-key error. The handler does not
    read [req.user]. (The schema's [trim] of [busNumber] is not modelled.) *)
Definition post_bus (now : Z) (newId : ObjectId) (body : NewBusBody)
    (w : World) : Reply * World :=
  if negb (valid_new_bus body) then (BadRequest400, w) else
  match nb_busNumber body, nb_driverId body, nb_capacity body,
        nb_destination body with
  | Some busNumber, Some driverId, Some capacity, Some destination =>
      if busNumber_taken busNumber w then (BadRequest400, w) else
      match users w !! driverId with
      | None => (BadRequest400, w)
      | Some driver =>
          if negb (String.eqb (u_role driver) "driver") then (BadRequest400, w)
          else
            match save (fresh (new_bus now busNumber driverId capacity
                                 destination (nb_route body))) with
            | None => (ServerError500, w)
            | Some bus =>
                match buses w !! newId with
                | Some _ => (ServerError500, w)
                | None =>
                    (Created201 bus,
                     set_assignedBus driverId newId (store newId bus w))
                end
            end
      end
  | _, _, _, _ => (BadRequest400, w)
  end.

(** *** GET /:id *)

Definition get_bus (busId : ObjectId) (w : World) : option Bus :=
  buses w !! busId.

(** *** PUT /:id/location *)

Definition valid_location (body : LocationBody) : bool :=
  required (Js.isFloat_between (-90) 90) (lb_latitude body)
  && required (Js.isFloat_between (-180) 180) (lb_longitude body)
  && optional (Js.isFloat_min 0) (lb_speed body)
  && optional (Js.isFloat_between 0 360) (lb_heading body).

(** The one authorization test of the two mutation routes:
    [req.user.role === 'driver' && bus.driverId.toString() !== req.user.id]. *)
Definition other_drivers_bus (user : User) (bus : Bus) : bool :=
  String.eqb (role user) "driver" && negb (String.eqb (driverId bus) (id user)).

Definition put_location (now : Z) (user : User) (busId : ObjectId)
    (body : LocationBody) (w : World) : Reply * World :=
  if negb (valid_location body) then (BadRequest400, w) else
  match lb_latitude body, lb_longitude body with
  | Some latitude, Some longitude =>
      let speed := default 0%float (lb_speed body) in
      let heading := default 0%float (lb_heading body) in
      match buses w !! busId with
      | None => (NotFound404, w)
      | Some bus =>
          if other_drivers_bus user bus then (Forbidden403, w) else
          match updateLocation now latitude longitude speed heading
                  (load bus) with
          | None => (ServerError500, w)
          | Some bus' =>
              (Ok200 bus',
               emit (bus_room busId) "bus-location-updated"
                 (LocationUpdated busId latitude longitude speed heading now)
                 (store busId bus' w))
          end
      end
  | _, _ => (BadRequest400, w)
  end.

(** *** PUT /:id/status *)

Definition valid_status (body : StatusBody) : bool :=
  required (fun s => Js.isIn s statuses) (sb_status body)
  && required (fun s => Js.isIn s seatTiers) (sb_seatAvailability body)
  && optional (Js.isInt_min 0) (sb_currentPassengers body).

(** [Object.assign(bus, updateData)] for the [updateData] the handler
    builds, then [bus.lastUpdated = new Date()]. *)
Definition assign_status (now : Z) (status seatAvailability : string)
    (body : StatusBody) (d : Doc) : Doc :=
  let d1 := assign (set_status status) d in
  let d2 := assign (set_seatAvailability seatAvailability) d1 in
  let d3 :=
    match sb_currentPassengers body with
    | Some n => assign_currentPassengers n d2
    | None => d2
    end in
  let d4 :=
    match sb_destination body with
    | Some s => if Js.truthy_str (Some s) then assign (set_destination s) d3 else d3
    | None => d3
    end in
  let d5 :=
    match sb_notes body with
    | Some s => if Js.truthy_str (Some s) then assign (set_notes (Some s)) d4 else d4
    | None => d4
    end in
  assign (set_lastUpdated now) d5.

Definition put_status (now : Z) (user : User) (busId : ObjectId)
    (body : StatusBody) (w : World) : Reply * World :=
  if negb (valid_status body) then (BadRequest400, w) else
  match sb_status body, sb_seatAvailability body with
  | Some status, Some seatAvailability =>
      match buses w !! busId with
      | None => (NotFound404, w)
      | Some bus =>
          if other_drivers_bus user bus then (Forbidden403, w) else
          match save (assign_status now status seatAvailability body (load bus)) with
          | None => (ServerError500, w)
          | Some bus' =>
              (Ok200 bus',
               emit (bus_room busId) "bus-status-updated"
                 (StatusUpdated busId status seatAvailability
                    (currentPassengers bus') (destination bus') now)
                 (store busId bus' w))
          end
      end
  | _, _ => (BadRequest400, w)
  end.

(** *** What the two mutation routes hand to [save] and leave behind *)

(** The event a successful location mutation emits. *)
Definition location_event (now : Z) (busId : ObjectId) (body : LocationBody)
    : Payload :=
  LocationUpdated busId (default 0%float (lb_latitude body))
    (default 0%float (lb_longitude body))
    (default 0%float (lb_speed body)) (default 0%float (lb_heading body)) now.

(** The world a successful location mutation leaves: one write, then one
    emit to the bus's room. *)
Definition location_committed (now : Z) (busId : ObjectId) (body : LocationBody)
    (bus' : Bus) (w : World) : World :=
  emit (bus_room busId) "bus-location-updated" (location_event now busId body)
    (store busId bus' w).

Definition status_committed (now : Z) (busId : ObjectId) (body : StatusBody)
    (bus' : Bus) (w : World) : World :=
  emit (bus_room busId) "bus-status-updated"
    (StatusUpdated busId (default "" (sb_status body))
       (default "" (sb_seatAvailability body))
       (currentPassengers bus') (destination bus') now)
    (store busId bus' w).

(** The document a location mutation hands to [save]. *)
Definition location_doc (now : Z) (body : LocationBody) (bus : Bus) : Doc :=
  updateLocation_assign now (default 0%float (lb_latitude body))
    (default 0%float (lb_longitude body))
    (default 0%float (lb_speed body)) (default 0%float (lb_heading body))
    (load bus).

(** The document a status mutation hands to [save]. *)
Definition status_doc (now : Z) (body : StatusBody) (bus : Bus) : Doc :=
  assign_status now (default "" (sb_status body))
    (default "" (sb_seatAvailability body)) body (load bus).

(** *** DELETE /:id *)

Definition delete_bus (user : User) (busId : ObjectId) (w : World)
    : Reply * World :=
  match buses w !! busId with
  | None => (NotFound404, w)
  | Some bus =>
      if negb (String.eqb (role user) "admin") then (Forbidden403, w) else
      match save (assign (set_isActive false) (load bus)) with
      | None => (ServerError500, w)
      | Some bus' => (Deactivated200, store busId bus' w)
      end
  end.

(** *** GET /nearby/:latitude/:longitude *)

(** The handler destructures [latitude], [longitude] and [maxDistance]
    from [req.query]; the two path parameters and every other query key
    are not read. *)
Record NearbyRequest := mkNearbyRequest {
  params_latitude : string;
  params_longitude : string;
  q_latitude : option float;
  q_longitude : option float;
  q_maxDistance : option Z;
  q_others : list (string * string)
}.

Inductive NearbyReply :=
| Nearby200 (maxDistance : Z) (buses : list Bus)
| Nearby500.

Section Nearby.
Variable geoDistance : list float -> list float -> Q.

(** [parseFloat(undefined)] is NaN; MongoDB refuses a point that is not
    a longitude/latitude pair and a negative [$maxDistance], and the
    handler's catch answers 500. *)
Definition get_nearby (req : NearbyRequest) (w : World) : NearbyReply :=
  let maxDistance := default 5000 (q_maxDistance req) in
  let coordinates :=
    [default nan (q_longitude req); default nan (q_latitude req)] in
  if valid_coordinates coordinates && (0 <=? maxDistance) then
    Nearby200 maxDistance
      (findNearby geoDistance coordinates maxDistance (buses w))
  else Nearby500.
End Nearby.

(** *** The system as a transition system *)

Inductive Request :=
| PostBus (now : Z) (newId : ObjectId) (body : NewBusBody)
| PutLocation (now : Z) (user : User) (busId : ObjectId) (body : LocationBody)
| PutStatus (now : Z) (user : User) (busId : ObjectId) (body : StatusBody)
| DeleteBus (user : User) (busId : ObjectId)
| JoinBusTracking (socket busId : string)
| UpdateBusLocation (busId body : string)
| UpdateBusStatus (busId body : string)
| Disconnect (socket : string).

Definition step (r : Request) (w : World) : World :=
  match r with
  | PostBus now newId body => snd (post_bus now newId body w)
  | PutLocation now user busId body => snd (put_location now user busId body w)
  | PutStatus now user busId body => snd (put_status now user busId body w)
  | DeleteBus user busId => snd (delete_bus user busId w)
  | JoinBusTracking socket busId => join_bus_tracking socket busId w
  | UpdateBusLocation busId body => update_bus_location busId body w
  | UpdateBusStatus busId body => update_bus_status busId body w
  | Disconnect socket => disconnect socket w
  end.

Definition run (rs : list Request) (w : World) : World :=
  foldl (fun w r => step r w) w rs.

(** Before the first request there is no bus, no room and no event; the
    users are whoever the authentication routes have registered. *)
Definition initial (registered : gmap ObjectId UserDoc) : World :=
  mkWorld ∅ registered ∅ [] [].

(** The worlds the system can be in. *)
Definition reachable (w : World) : Prop :=
  exists registered rs, w = run rs (initial registered).

(** Every stored bus has a passenger count that is not negative and a
    capacity between 1 and 100. *)
Definition counts_in_bounds (w : World) : Prop :=
  forall busId bus, buses w !! busId = Some bus ->
    0 <= currentPassengers bus /\ 1 <= capacity bus <= 100.

End Routes.

(** ** The State Derivation as the specification words it *)

Module Reference.
Import BusModel.

(** The exact three-way rule of the State Derivation, over the integers:
    the reference the binary64 computation is compared with. *)
Definition tier_exact (occupancy capacity : Z) : string :=
  if occupancy =? 0 then "Empty"
  else if 90 * capacity <=? 100 * occupancy then "Full"
  else "Few Seats".

(** The binary64 computation and the exact rule agree on a pair. *)
Definition tier_agrees (capacity occupancy : Z) : bool :=
  String.eqb (deriveTier occupancy capacity) (tier_exact occupancy capacity).

(** ... and on every pair with [1 <= capacity <= 100] and
    [0 <= occupancy <= capacity]. *)
Definition tier_agrees_on_schema_range : bool :=
  forallb (fun c => forallb (tier_agrees c) (seqZ 0 (c + 1))) (seqZ 1 100).

End Reference.

(** ** A small fleet to run the handlers on *)

Module Scenario.
Import BusModel Server Routes.

Definition student : User := mkUser "s1" "student".
Definition admin : User := mkUser "a1" "admin".
Definition driver1 : User := mkUser "d1" "driver".
Definition driver2 : User := mkUser "d2" "driver".

Definition drivers : gmap ObjectId UserDoc :=
  <["d1" := mkUserDoc "driver" None]> (<["d2" := mkUserDoc "driver" None]> ∅).

Definition v1_body : NewBusBody :=
  mkNewBusBody (Some "KIIT-01") (Some "d1") (Some 45) (Some "Main Campus") None.
Definition v2_body : NewBusBody :=
  mkNewBusBody (Some "KIIT-02") (Some "d2") (Some 50) (Some "Campus 6") None.

(** Bus [v1], capacity 45, registered at time 1000 and watched by
    socket [c1]. *)
Definition setup : list Request :=
  [PostBus 1000 "v1" v1_body; JoinBusTracking "c1" "v1"].
Definition w1 : World := run setup (initial drivers).

Definition move : LocationBody :=
  mkLocationBody (Some 20.355%float) (Some 85.819%float) None None.

Definition status_only (status seatAvailability : string) : StatusBody :=
  mkStatusBody (Some status) (Some seatAvailability) None None None.
Definition with_passengers (n : Z) : StatusBody :=
  mkStatusBody (Some "active") (Some "Empty") (Some n) None None.

(** An exact reading of a binary64 value as a rational (0 for the
    values that are not finite). *)
Definition float_to_Q (f : float) : Q :=
  match Prim2SF f with
  | S754_finite s m e =>
      let q := (inject_Z (Z.pos m) * (2 ^ e))%Q in
      if s then Qopp q else q
  | _ => 0%Q
  end.

(** A flat-earth stand-in for MongoDB's distance, good enough to run
    [findNearby] on points a few kilometres apart: 111 km per degree
    along each axis, added up. *)
Definition flat_metres (a b : list float) : Q :=
  match a, b with
  | [x1; y1], [x2; y2] =>
      (111000 * (Qabs (float_to_Q x1 - float_to_Q x2)
                 + Qabs (float_to_Q y1 - float_to_Q y2)))%Q
  | _, _ => 0%Q
  end.

(** Two buses in service at the depot, both registered by POST. *)
Definition two_buses : World :=
  run [PostBus 1000 "v1" v1_body; PostBus 1001 "v2" v2_body;
       PutStatus 1002 driver1 "v1" (status_only "active" "Empty");
       PutStatus 1003 driver2 "v2" (status_only "active" "Empty")]
      (initial drivers).

(** The same fleet after an admin has deactivated [v1]. *)
Definition w_inactive : World :=
  run (setup ++ [DeleteBus admin "v1"]) (initial drivers).

(** [v1] after a status mutation reporting 60 passengers. *)
Definition w_crowded : World :=
  run (setup ++ [PutStatus 2000 driver1 "v1" (with_passengers 60)])
      (initial drivers).

Definition bad_latitude : LocationBody :=
  mkLocationBody (Some 91%float) (Some 85.819%float) None None.
Definition full_turn : LocationBody :=
  mkLocationBody (Some 20.355%float) (Some 85.819%float) (Some 12%float)
    (Some 360%float).

Definition at_depot (others : list (string * string)) : NearbyRequest :=
  mkNearbyRequest "20.2961" "85.8189"
    (Some 20.2961%float) (Some 85.8189%float) (Some 500) others.
End Scenario.

(** ** JavaScript's [Math.round] and [Math.ceil] on binary64 values *)

Module JsMath.

(** The rational a finite binary64 value stands for; [None] for NaN and
    the two infinities. *)
Definition to_Q (f : float) : option Q :=
  match Prim2SF f with
  | S754_zero _ => Some 0%Q
  | S754_finite s m e =>
      let q := (inject_Z (Z.pos m) * (2 ^ e))%Q in
      Some (if s then Qopp q else q)
  | _ => None
  end.

(** [Math.round]: the nearest integer, a tie going up. Of a value that is
    not finite JavaScript returns the value itself, which JSON prints as
    [null]: that is [None] here. *)
Definition round (f : float) : option Z :=
  match to_Q f with
  | Some q => Some (Qfloor (q + (1 # 2)))
  | None => None
  end.

(** [Math.ceil], with the same reading of the values that are not finite. *)
Definition ceil (f : float) : option Z :=
  match to_Q f with
  | Some q => Some (Qceiling q)
  | None => None
  end.

End JsMath.

(** ** models/Bus.js: the two virtuals *)

Module BusVirtuals.
Import BusModel.

(** [busSchema.virtual('availableSeats')]. *)
Definition availableSeats (this : Bus) : Z :=
  capacity this - currentPassengers this.

(** [busSchema.virtual('occupancyPercentage')]:
    [Math.round((this.currentPassengers / this.capacity) * 100)]. *)
Definition occupancyPercentage (this : Bus) : option Z :=
  JsMath.round (percentage (currentPassengers this) (capacity this)).

(** [k] is an integer nearest to the percentage [100 * occupancy /
    capacity]: at most one half away from it. *)
Definition nearest_percent (occupancy capacity k : Z) : Prop :=
  200 * occupancy - capacity <= 2 * capacity * k <= 200 * occupancy + capacity.

Definition rounds_to_nearest (capacity occupancy : Z) : bool :=
  match JsMath.round (percentage occupancy capacity) with
  | Some k =>
      (200 * occupancy - capacity <=? 2 * capacity * k)
      && (2 * capacity * k <=? 200 * occupancy + capacity)
  | None => false
  end.

(** The three tiers in rising order. *)
Definition tier_rank (tier : string) : Z :=
  if String.eqb tier "Empty" then 0
  else if String.eqb tier "Few Seats" then 1
  else 2.

End BusVirtuals.

(** ** routes/buses.js: the two listing routes *)

Module Listing.
Import BusModel Server Routes.

(** The query string of [GET /], each number as [parseInt] reads it. *)
Record ListQuery := mkListQuery {
  lq_status : option string;
  lq_destination : option string;
  lq_limit : option Z;
  lq_page : option Z
}.

(** [const filter = { isActive: true }; if (status) filter.status = status;
    if (destination) filter.destination = destination;] as a test on a
    document. *)
Definition list_filter (q : ListQuery) (b : Bus) : bool :=
  Bool.eqb (isActive b) true
  && match lq_status q with
     | Some s => if Js.truthy_str (Some s) then String.eqb (status b) s else true
     | None => true
     end
  && match lq_destination q with
     | Some s =>
         if Js.truthy_str (Some s) then String.eqb (destination b) s else true
     | None => true
     end.

(** [.sort({ lastUpdated: -1 })]: the later update first. *)
Definition newer (a b : ObjectId * Bus) : Prop :=
  lastUpdated (snd b) <= lastUpdated (snd a).

#[export] Instance newer_dec : RelDecision newer.
Proof. intros a b. unfold newer. apply Z_le_dec. Defined.

(** [Bus.find(filter).sort({ lastUpdated: -1 })], each document with its
    [_id]. ([populate] only swaps the two references for the documents
    they point to and is not modelled.) *)
Definition find_newest_first (matches : Bus -> bool)
    (collection : gmap ObjectId Bus) : list (ObjectId * Bus) :=
  merge_sort newer
    (List.filter (fun kv => matches (snd kv)) (map_to_list collection)).

(** MongoDB's cursor limit: 0 is no limit, a negative number counts as
    its absolute value. *)
Definition cursor_limit {A} (n : Z) (l : list A) : list A :=
  if n =? 0 then l else take (Z.to_nat (Z.abs n)) l.

Inductive ListReply :=
| List200 (buses : list (ObjectId * Bus)) (page limit total : Z)
    (pages : option Z)
| List500.

(** [GET /]. MongoDB refuses a negative skip, and the handler's catch
    answers 500. [pages] is [Math.ceil(total / parseInt(limit))] as JSON
    prints it. *)
Definition get_buses (q : ListQuery) (w : World) : ListReply :=
  let limit := default 50 (lq_limit q) in
  let page := default 1 (lq_page q) in
  let skip := (page - 1) * limit in
  if skip <? 0 then List500
  else
    let matching := find_newest_first (list_filter q) (buses w) in
    let total := Z.of_nat (length matching) in
    List200 (cursor_limit limit (drop (Z.to_nat skip) matching))
      page limit total
      (JsMath.ceil (Js.of_Z total / Js.of_Z limit)%float).

(** The filter of [GET /destination/:destination]:
    [{ destination, status, isActive: true }]. *)
Definition destination_filter (destination status : string) (b : Bus) : bool :=
  String.eqb (BusModel.destination b) destination
  && String.eqb (BusModel.status b) status
  && Bool.eqb (isActive b) true.

(** [GET /destination/:destination], with [status = 'active'] when the
    query string has none. *)
Definition get_by_destination (destination : string) (status : option string)
    (w : World) : list (ObjectId * Bus) :=
  find_newest_first (destination_filter destination (default "active" status))
    (buses w).

End Listing.

(** ** What a status mutation asks [save] to accept *)

Module Outcomes.
Import BusModel Server Routes.

(** The body names a destination the handler assigns (a non-empty string)
    and the schema's list does not hold. *)
Definition bad_destination (body : StatusBody) : bool :=
  match sb_destination body with
  | Some s => Js.truthy_str (Some s) && negb (Js.isIn s destinations)
  | None => false
  end.

(** The body carries notes the handler assigns and the schema finds too
    long. *)
Definition long_notes (body : StatusBody) : bool :=
  match sb_notes body with
  | Some s => Js.truthy_str (Some s) && negb (String.length s <=? 500)%nat
  | None => false
  end.

End Outcomes.

(** ** Facts about a whole run *)

Module Runs.
Import BusModel Server Routes.

(** Every stored bus passes schema validation. *)
Definition all_valid (w : World) : Prop :=
  forall busId bus, buses w !! busId = Some bus -> validate bus = true.

(** No two stored buses share a bus number. *)
Definition unique_numbers (w : World) : Prop :=
  forall id1 id2 b1 b2,
    buses w !! id1 = Some b1 -> buses w !! id2 = Some b2 ->
    busNumber b1 = busNumber b2 -> id1 = id2.

(** The socket has asked to track the bus somewhere in the run. *)
Definition joined (rs : list Request) (socket busId : string) : Prop :=
  JoinBusTracking socket busId ∈ rs.

End Runs.

(** ** What stays of a bus, and more of the small fleet *)

Module Fleet.
Import BusModel Server Routes Listing Scenario.

(** [b'] is a later state of the bus [b]: same number, driver, capacity
    and route, and active only if [b] was. *)
Definition later_state (b b' : Bus) : Prop :=
  busNumber b' = busNumber b /\ driverId b' = driverId b
  /\ capacity b' = capacity b /\ route b' = route b
  /\ (isActive b' = true -> isActive b = true).

(** The reading of the server's clock a request is handled with, for the
    three routes that take one. *)
Definition clock_of (r : Request) : option Z :=
  match r with
  | PostBus now _ _ | PutLocation now _ _ _ | PutStatus now _ _ _ => Some now
  | _ => None
  end.

(** No stored bus was updated after [t]. *)
Definition updated_by (t : Z) (w : World) : Prop :=
  forall busId bus, buses w !! busId = Some bus -> lastUpdated bus <= t.

(** [GET /] with an empty query string. *)
Definition plain_query : ListQuery := mkListQuery None None None None.

(** The two buses in service, then [v1] deactivated by an admin and
    moved by its driver. *)
Definition after_deactivation : list Request :=
  [PostBus 1000 "v1" v1_body; PostBus 1001 "v2" v2_body;
   PutStatus 1002 driver1 "v1" (status_only "active" "Empty");
   PutStatus 1003 driver2 "v2" (status_only "active" "Empty");
   DeleteBus admin "v1";
   PutLocation 1004 driver1 "v1" move].

End Fleet.

(** * Properties of the model *)

Import BusModel Server Routes Reference Scenario.

(** ** Schema validation and the pre-save hook *)

(** Split a conjunction of boolean checks into its parts. *)
Ltac split_checks H :=
  repeat match type of H with
         | (_ && _) = true =>
             let H' := fresh "Hv" in
             apply andb_prop in H as [H H']
         end.

Lemma validate_bounds b :
  validate b = true ->
  0 <= currentPassengers b /\ 1 <= capacity b <= 100.
Proof.
  unfold validate. intros H. split_checks H.
  repeat match goal with
         | E : (_ <=? _) = true |- _ => apply Z.leb_le in E
         end.
  lia.
Qed.

Lemma pre_save_keeps d :
  currentPassengers (pre_save d) = currentPassengers (fields d)
  /\ capacity (pre_save d) = capacity (fields d)
  /\ isActive (pre_save d) = isActive (fields d)
  /\ lastUpdated (pre_save d) = lastUpdated (fields d)
  /\ coordinates (pre_save d) = coordinates (fields d)
  /\ status (pre_save d) = status (fields d).
Proof. unfold pre_save. by destruct (passengersModified d). Qed.

Lemma save_Some d b :
  save d = Some b -> validate (fields d) = true /\ b = pre_save d.
Proof.
  unfold save. destruct (validate (fields d)); [|done].
  intros [= <-]. done.
Qed.

Lemma save_valid d :
  validate (fields d) = true -> save d = Some (pre_save d).
Proof. unfold save. by intros ->. Qed.

(** What [save] writes has a non-negative passenger count and a capacity
    between 1 and 100. *)
Lemma save_bounds d b :
  save d = Some b -> 0 <= currentPassengers b /\ 1 <= capacity b <= 100.
Proof.
  intros [Hv ->]%save_Some.
  destruct (pre_save_keeps d) as (-> & -> & _).
  by apply validate_bounds.
Qed.

(** ** State Derivation *)

Lemma tier_agrees_checked : tier_agrees_on_schema_range = true.
Proof. vm_compute. reflexivity. Qed.

(** On the capacities the schema admits, the binary64 computation of the
    hook is the exact rule. *)
Lemma deriveTier_exact occupancy capacity :
  1 <= capacity <= 100 -> 0 <= occupancy <= capacity ->
  deriveTier occupancy capacity = tier_exact occupancy capacity.
Proof.
  intros Hc Ho.
  pose proof tier_agrees_checked as H. unfold tier_agrees_on_schema_range in H.
  rewrite forallb_forall in H.
  assert (Hin : In capacity (seqZ 1 100)).
  { apply list_elem_of_In, elem_of_seqZ. lia. }
  specialize (H _ Hin). rewrite forallb_forall in H.
  assert (Hin' : In occupancy (seqZ 0 (capacity + 1))).
  { apply list_elem_of_In, elem_of_seqZ. lia. }
  specialize (H _ Hin'). unfold tier_agrees in H.
  by apply String.eqb_eq in H.
Qed.

Lemma tier_exact_cases occupancy capacity :
  (tier_exact occupancy capacity = "Empty" <-> occupancy = 0)
  /\ (tier_exact occupancy capacity = "Full"
      <-> occupancy <> 0 /\ 90 * capacity <= 100 * occupancy)
  /\ (tier_exact occupancy capacity = "Few Seats"
      <-> occupancy <> 0 /\ 100 * occupancy < 90 * capacity).
Proof.
  unfold tier_exact.
  destruct (Z.eqb_spec occupancy 0) as [->|Hne];
    [|destruct (Z.leb_spec (90 * capacity) (100 * occupancy))];
    repeat split; intros; try done; try lia; naive_solver lia.
Qed.




(** The hook stores the derived tier exactly when the passenger count was
    modified. *)
Lemma pre_save_modified d :
  passengersModified d = true ->
  seatAvailability (pre_save d)
  = deriveTier (currentPassengers (fields d)) (capacity (fields d)).
Proof. unfold pre_save. by intros ->. Qed.

Lemma pre_save_unmodified d :
  passengersModified d = false -> pre_save d = fields d.
Proof. unfold pre_save. by intros ->. Qed.

(** ** The [updateStatus] method *)

Lemma isIn_true s l : Js.isIn s l = true <-> In s l.
Proof.
  unfold Js.isIn. rewrite existsb_exists. split.
  - intros (x & Hx & ->%String.eqb_eq). done.
  - intros H. exists s. by rewrite String.eqb_refl.
Qed.

(** Assigning a status, a tier, a passenger count that is not negative and
    a timestamp keeps a valid document valid. *)
Lemma updateStatus_assign_valid now st seat n d :
  validate (fields d) = true ->
  Js.isIn st statuses = true -> Js.isIn seat seatTiers = true ->
  0 <= Js.or_else n (currentPassengers (fields d)) ->
  validate (fields (updateStatus_assign now st seat n d)) = true.
Proof.
  intros Hv Hst Hseat Hn. unfold validate in *.
  cbn -[Js.isIn valid_coordinates valid_notes Z.leb PrimFloat.leb String.eqb].
  split_checks Hv. rewrite Hst, Hseat.
  apply Z.leb_le in Hn. rewrite Hn.
  repeat match goal with E : _ = true |- _ => rewrite E; clear E end.
  reflexivity.
Qed.

Lemma or_else_zero b : Js.or_else (Some 0) b = b.
Proof. reflexivity. Qed.

Lemma or_else_positive n b : 0 < n -> Js.or_else (Some n) b = n.
Proof.
  intros Hn. unfold Js.or_else, Js.truthy.
  destruct (Z.eqb_spec n 0); [lia|done].
Qed.

Lemma updateStatus_assign_count now st seat n d :
  currentPassengers (fields (updateStatus_assign now st seat n d))
  = Js.or_else n (currentPassengers (fields d)).
Proof. reflexivity. Qed.

(** C10. [updateStatus] called with [currentPassengers] equal to 0 leaves
    the passenger count of the document at its previous value (the 0 is
    taken for "not supplied"), and that is the count [save] writes; called
    with a positive count, the document holds and [save] writes the count
    as given. On a valid document with a status and a tier of the schema's
    lists the call does save. *)
Theorem updateStatus_zero_keeps_count (now : Z) (st seat : string) (d : Doc) :
  currentPassengers (fields (updateStatus_assign now st seat (Some 0) d))
    = currentPassengers (fields d)
  /\ (forall b', updateStatus now st seat (Some 0) d = Some b' ->
        currentPassengers b' = currentPassengers (fields d))
  /\ (forall n, 0 < n ->
        currentPassengers (fields (updateStatus_assign now st seat (Some n) d)) = n
        /\ forall b', updateStatus now st seat (Some n) d = Some b' ->
                      currentPassengers b' = n)
  /\ (validate (fields d) = true ->
      Js.isIn st statuses = true -> Js.isIn seat seatTiers = true ->
      is_Some (updateStatus now st seat (Some 0) d)
      /\ forall n, 0 < n -> is_Some (updateStatus now st seat (Some n) d)).
Proof.
  split; [reflexivity|]. split; [|split].
  - intros b' [_ ->]%save_Some.
    by destruct (pre_save_keeps (updateStatus_assign now st seat (Some 0) d))
      as (-> & _).
  - intros n Hn. rewrite updateStatus_assign_count, or_else_positive by done.
    split; [done|]. intros b' [_ ->]%save_Some.
    destruct (pre_save_keeps (updateStatus_assign now st seat (Some n) d))
      as (-> & _).
    by rewrite updateStatus_assign_count, or_else_positive.
  - intros Hv Hst Hseat.
    pose proof (validate_bounds _ Hv) as [H0 _].
    split; [|intros n Hn]; unfold updateStatus; rewrite save_valid; try done;
      apply updateStatus_assign_valid; try done.
    rewrite or_else_positive by done. lia.
Qed.

Lemma updateStatus_zero_keeps_count_witness :
  let d := load (set_currentPassengers 20
                   (new_bus 1000 "KIIT-01" "d1" 45 "Main Campus" None)) in
  is_Some (updateStatus 2000 "active" "Few Seats" (Some 0) d)
  /\ is_Some (updateStatus 2000 "active" "Few Seats" (Some 7) d)
  /\ currentPassengers
       (fields (updateStatus_assign 2000 "active" "Few Seats" (Some 7) d)) = 7
  /\ forall b', updateStatus 2000 "active" "Few Seats" (Some 0) d = Some b' ->
                currentPassengers b' = 20.
Proof.
  cbv zeta.
  destruct (updateStatus_zero_keeps_count 2000 "active" "Few Seats"
    (load (set_currentPassengers 20
             (new_bus 1000 "KIIT-01" "d1" 45 "Main Campus" None))))
    as (_ & Hzero & Hpos & Hsaves).
  destruct (Hsaves ltac:(vm_compute; reflexivity) ltac:(reflexivity)
              ltac:(reflexivity)) as [Hs0 Hsn].
  destruct (Hpos 7 ltac:(lia)) as [H7 _].
  split; [exact Hs0|]. split; [apply Hsn; lia|].
  split; [exact H7 | exact Hzero].
Defined.

(** ** The two mutation routes, case by case *)

Lemma required_Some {A} (check : A -> bool) v :
  required check v = true -> exists x, v = Some x /\ check x = true.
Proof. destruct v; [eauto|done]. Qed.

Lemma valid_location_inv body :
  valid_location body = true ->
  exists latitude longitude,
    lb_latitude body = Some latitude /\ lb_longitude body = Some longitude
    /\ Js.isFloat_between (-90) 90 latitude = true
    /\ Js.isFloat_between (-180) 180 longitude = true
    /\ optional (Js.isFloat_min 0) (lb_speed body) = true
    /\ optional (Js.isFloat_between 0 360) (lb_heading body) = true.
Proof.
  unfold valid_location. intros H. split_checks H.
  apply required_Some in H as (lat & Hlat & ?).
  apply required_Some in Hv1 as (lon & Hlon & ?).
  exists lat, lon. done.
Qed.

Lemma valid_status_inv body :
  valid_status body = true ->
  exists status seatAvailability,
    sb_status body = Some status /\ sb_seatAvailability body = Some seatAvailability
    /\ Js.isIn status statuses = true
    /\ Js.isIn seatAvailability seatTiers = true
    /\ optional (Js.isInt_min 0) (sb_currentPassengers body) = true.
Proof.
  unfold valid_status. intros H. split_checks H.
  apply required_Some in H as (st & Hst & ?).
  apply required_Some in Hv0 as (seat & Hseat & ?).
  exists st, seat. done.
Qed.

(** Every way [PUT /:id/location] can end. *)
Lemma put_location_cases now user busId body w :
  (valid_location body = false
   /\ put_location now user busId body w = (BadRequest400, w))
  \/ (valid_location body = true /\ buses w !! busId = None
      /\ put_location now user busId body w = (NotFound404, w))
  \/ (exists bus, valid_location body = true /\ buses w !! busId = Some bus
      /\ other_drivers_bus user bus = true
      /\ put_location now user busId body w = (Forbidden403, w))
  \/ (exists bus, valid_location body = true /\ buses w !! busId = Some bus
      /\ other_drivers_bus user bus = false
      /\ save (location_doc now body bus) = None
      /\ put_location now user busId body w = (ServerError500, w))
  \/ (exists bus bus', valid_location body = true /\ buses w !! busId = Some bus
      /\ other_drivers_bus user bus = false
      /\ save (location_doc now body bus) = Some bus'
      /\ put_location now user busId body w
         = (Ok200 bus', location_committed now busId body bus' w)).
Proof.
  unfold put_location, location_committed, location_event, location_doc,
    updateLocation.
  destruct (valid_location body) eqn:Hv; [|by left].
  right. apply valid_location_inv in Hv as (lat & lon & -> & -> & _).
  cbn [negb default].
  destruct (buses w !! busId) as [bus|] eqn:Hb; [|by left].
  right. destruct (other_drivers_bus user bus) eqn:Ho; [left; by exists bus|].
  right.
  destruct (save _) as [bus'|] eqn:Hs; [right; by exists bus, bus' | left; by exists bus].
Qed.

(** Every way [PUT /:id/status] can end. *)
Lemma put_status_cases now user busId body w :
  (valid_status body = false
   /\ put_status now user busId body w = (BadRequest400, w))
  \/ (valid_status body = true /\ buses w !! busId = None
      /\ put_status now user busId body w = (NotFound404, w))
  \/ (exists bus, valid_status body = true /\ buses w !! busId = Some bus
      /\ other_drivers_bus user bus = true
      /\ put_status now user busId body w = (Forbidden403, w))
  \/ (exists bus, valid_status body = true /\ buses w !! busId = Some bus
      /\ other_drivers_bus user bus = false
      /\ save (status_doc now body bus) = None
      /\ put_status now user busId body w = (ServerError500, w))
  \/ (exists bus bus', valid_status body = true /\ buses w !! busId = Some bus
      /\ other_drivers_bus user bus = false
      /\ save (status_doc now body bus) = Some bus'
      /\ put_status now user busId body w
         = (Ok200 bus', status_committed now busId body bus' w)).
Proof.
  unfold put_status, status_committed, status_doc.
  destruct (valid_status body) eqn:Hv; [|by left].
  right. apply valid_status_inv in Hv as (st & seat & -> & -> & _).
  cbn [negb default].
  destruct (buses w !! busId) as [bus|] eqn:Hb; [|by left].
  right. destruct (other_drivers_bus user bus) eqn:Ho; [left; by exists bus|].
  right.
  destruct (save _) as [bus'|] eqn:Hs; [right; by exists bus, bus' | left; by exists bus].
Qed.

(** A location in range keeps a valid document valid. *)
Lemma location_doc_valid now body bus :
  validate bus = true -> valid_location body = true ->
  validate (fields (location_doc now body bus)) = true.
Proof.
  intros Hv Hb.
  apply valid_location_inv in Hb as (lat & lon & Hlat & Hlon & Hla & Hlo & Hs & Hh).
  unfold location_doc. rewrite Hlat, Hlon.
  unfold validate in *.
  cbn -[Js.isIn valid_notes Z.leb PrimFloat.leb String.eqb].
  split_checks Hv.
  unfold Js.isFloat_between in Hla, Hlo. split_checks Hla. split_checks Hlo.
  assert (Hs' : (0 <=? default 0 (lb_speed body))%float = true).
  { destruct (lb_speed body); [exact Hs | reflexivity]. }
  assert (Hh' : ((0 <=? default 0 (lb_heading body))
                 && (default 0 (lb_heading body) <=? 360))%float = true).
  { destruct (lb_heading body); [exact Hh | reflexivity]. }
  split_checks Hh'.
  repeat match goal with E : _ = true |- _ => rewrite E; clear E end.
  reflexivity.
Qed.

Lemma student_is_no_driver user bus :
  role user = "student" -> other_drivers_bus user bus = false.
Proof. unfold other_drivers_bus. by intros ->. Qed.

(** The check does stop a driver who is not the driver of the bus. *)
Lemma other_driver_is_refused now user busId w bus :
  role user = "driver" -> driverId bus <> id user ->
  buses w !! busId = Some bus ->
  (forall body, valid_location body = true ->
     put_location now user busId body w = (Forbidden403, w))
  /\ (forall body, valid_status body = true ->
        put_status now user busId body w = (Forbidden403, w)).
Proof.
  intros Hrole Hne Hbus.
  assert (Ho : other_drivers_bus user bus = true).
  { unfold other_drivers_bus. rewrite Hrole. simpl.
    destruct (String.eqb_spec (driverId bus) (id user)); done. }
  split; intros body Hb.
  - destruct (put_location_cases now user busId body w)
      as [(? & _)|[(_ & ? & _)|[(b & _ & ? & _ & Hr)|[(b & _ & ? & ? & _)
         |(b & b' & _ & ? & ? & _)]]]]; simplify_eq; congruence.
  - destruct (put_status_cases now user busId body w)
      as [(? & _)|[(_ & ? & _)|[(b & _ & ? & _ & Hr)|[(b & _ & ? & ? & _)
         |(b & b' & _ & ? & ? & _)]]]]; simplify_eq; congruence.
Qed.

(** C1 (what the code does instead). A caller whose role is "student" is
    not stopped by the ownership check of either mutation route: a
    location mutation in range on a stored, valid bus is saved with
    [lastUpdated] set to the time of the request and is broadcast to the
    bus's room, and a status mutation is saved and broadcast whenever
    [save] accepts the document. *)
Theorem student_mutation_is_applied (now : Z) (user : User) (busId : ObjectId)
    (w : World) (bus : Bus) :
  role user = "student" ->
  buses w !! busId = Some bus ->
  validate bus = true ->
  (forall body, valid_location body = true ->
     exists bus',
       put_location now user busId body w
         = (Ok200 bus', location_committed now busId body bus' w)
       /\ lastUpdated bus' = now
       /\ get_bus busId (snd (put_location now user busId body w)) = Some bus')
  /\ (forall body bus', valid_status body = true ->
        save (status_doc now body bus) = Some bus' ->
        put_status now user busId body w
          = (Ok200 bus', status_committed now busId body bus' w)).
Proof.
  intros Hrole Hbus Hv. split.
  - intros body Hb.
    pose proof (location_doc_valid now body bus Hv Hb) as Hd.
    apply save_valid in Hd.
    destruct (put_location_cases now user busId body w)
      as [(? & _)|[(_ & ? & _)|[(b & _ & ? & Ho & _)|[(b & _ & ? & _ & ? & _)
         |(b & b' & _ & ? & _ & ? & Hr)]]]]; simplify_eq; try congruence.
    + by rewrite student_is_no_driver in Ho.
    + eexists. split; [exact Hr|]. split.
      * match goal with
        | |- context [pre_save ?d] =>
            destruct (pre_save_keeps d) as (_ & _ & _ & -> & _)
        end.
        reflexivity.
      * rewrite Hr. unfold get_bus, location_committed. simpl.
        apply lookup_insert_eq.
  - intros body bus' Hb Hs.
    destruct (put_status_cases now user busId body w)
      as [(? & _)|[(_ & ? & _)|[(b & _ & ? & Ho & _)|[(b & _ & ? & _ & ? & _)
         |(b & b' & _ & ? & _ & ? & Hr)]]]]; simplify_eq; try congruence.
    by rewrite student_is_no_driver in Ho.
Qed.

Lemma student_mutation_is_applied_witness :
  (exists bus',
     put_location 2000 student "v1" move w1
       = (Ok200 bus', location_committed 2000 "v1" move bus' w1)
     /\ lastUpdated bus' = 2000
     /\ get_bus "v1" (snd (put_location 2000 student "v1" move w1)) = Some bus')
  /\ exists bus',
       put_status 2000 student "v1" (with_passengers 45) w1
         = (Ok200 bus', status_committed 2000 "v1" (with_passengers 45) bus' w1)
       /\ currentPassengers bus' = 45.
Proof.
  destruct (student_mutation_is_applied 2000 student "v1" w1
    (new_bus 1000 "KIIT-01" "d1" 45 "Main Campus" None)
    ltac:(reflexivity) ltac:(vm_compute; reflexivity)
    ltac:(vm_compute; reflexivity)) as [Hloc Hst].
  split.
  - apply Hloc. vm_compute. reflexivity.
  - eexists. split.
    + apply Hst; vm_compute; reflexivity.
    + reflexivity.
Defined.

(** ** Seat tier against passenger count *)

(** What the document of a status mutation holds when it reaches [save]. *)
Lemma status_doc_fields now body bus st seat :
  sb_status body = Some st -> sb_seatAvailability body = Some seat ->
  let d := status_doc now body bus in
  seatAvailability (fields d) = seat
  /\ capacity (fields d) = capacity bus
  /\ currentPassengers (fields d)
     = default (currentPassengers bus) (sb_currentPassengers body)
  /\ passengersModified d
     = match sb_currentPassengers body with
       | Some n => negb (n =? currentPassengers bus)
       | None => false
       end.
Proof.
  intros Hst Hseat. unfold status_doc, assign_status. rewrite Hst, Hseat.
  cbn [default].
  destruct (sb_currentPassengers body) as [n|];
    destruct (sb_destination body) as [dst|];
    destruct (sb_notes body) as [nt|];
    repeat match goal with
           | |- context [Js.truthy_str ?v] => destruct (Js.truthy_str v)
           end;
    done.
Qed.

Lemma location_doc_fields now body bus :
  let d := location_doc now body bus in
  seatAvailability (fields d) = seatAvailability bus
  /\ capacity (fields d) = capacity bus
  /\ currentPassengers (fields d) = currentPassengers bus
  /\ isActive (fields d) = isActive bus
  /\ passengersModified d = false.
Proof. done. Qed.

(** C2 (as the code has it). A committed status mutation that supplies a
    passenger count different from the stored one stores the tier derived
    from that count and the capacity of the same document; one that
    supplies no count, or the stored count again, stores the tier the
    caller sent; a committed location mutation leaves count, capacity and
    tier as they were. In each case the reply and the collection hold the
    same document. *)
Theorem seat_tier_after_commit (now : Z) (user : User) (busId : ObjectId)
    (w : World) (bus : Bus) :
  buses w !! busId = Some bus ->
  (forall body bus' w',
     put_status now user busId body w = (Ok200 bus', w') ->
     get_bus busId w' = Some bus'
     /\ capacity bus' = capacity bus
     /\ match sb_currentPassengers body with
        | Some n =>
            currentPassengers bus' = n
            /\ (n <> currentPassengers bus ->
                seatAvailability bus' = deriveTier n (capacity bus'))
            /\ (n = currentPassengers bus ->
                sb_seatAvailability body = Some (seatAvailability bus'))
        | None =>
            currentPassengers bus' = currentPassengers bus
            /\ sb_seatAvailability body = Some (seatAvailability bus')
        end)
  /\ (forall body bus' w',
        put_location now user busId body w = (Ok200 bus', w') ->
        get_bus busId w' = Some bus'
        /\ capacity bus' = capacity bus
        /\ currentPassengers bus' = currentPassengers bus
        /\ seatAvailability bus' = seatAvailability bus).
Proof.
  intros Hbus. split.
  - intros body bus' w' Hput.
    destruct (put_status_cases now user busId body w)
      as [(? & ?)|[(_ & ? & ?)|[(b & _ & ? & ? & ?)|[(b & _ & ? & _ & ? & ?)
         |(b & b' & Hv & ? & _ & Hs & Hr)]]]]; simplify_eq; try congruence.
    rewrite Hr in Hput. injection Hput as <- <-.
    apply valid_status_inv in Hv as (st & seat & Hst & Hseat & _).
    apply save_Some in Hs as [_ ->].
    destruct (status_doc_fields now body bus st seat Hst Hseat)
      as (Hsa & Hcap & Hcp & Hmod).
    split. { unfold get_bus, status_committed. simpl. apply lookup_insert_eq. }
    destruct (pre_save_keeps (status_doc now body bus)) as (Hkp & Hkc & _).
    rewrite Hkp, Hkc, Hcap, Hcp. split; [done|].
    destruct (sb_currentPassengers body) as [n|]; cbn [default] in *.
    + split; [done|].
      destruct (Z.eqb_spec n (currentPassengers bus)) as [->|Hne];
        cbn [negb] in Hmod.
      * rewrite pre_save_unmodified, Hsa, Hseat by done. done.
      * rewrite pre_save_modified, Hcap, Hcp by done. done.
    + rewrite pre_save_unmodified, Hsa, Hseat by done. done.
  - intros body bus' w' Hput.
    destruct (put_location_cases now user busId body w)
      as [(? & ?)|[(_ & ? & ?)|[(b & _ & ? & ? & ?)|[(b & _ & ? & _ & ? & ?)
         |(b & b' & Hv & ? & _ & Hs & Hr)]]]]; simplify_eq; try congruence.
    rewrite Hr in Hput. injection Hput as <- <-.
    apply save_Some in Hs as [_ ->].
    split. { unfold get_bus, location_committed. simpl. apply lookup_insert_eq. }
    done.
Qed.

Lemma seat_tier_after_commit_witness :
  exists bus',
    get_bus "v1" (snd (put_status 2000 driver1 "v1" (with_passengers 41) w1))
      = Some bus'
    /\ currentPassengers bus' = 41
    /\ seatAvailability bus' = "Full".
Proof.
  destruct (seat_tier_after_commit 2000 driver1 "v1" w1
    (new_bus 1000 "KIIT-01" "d1" 45 "Main Campus" None)
    ltac:(vm_compute; reflexivity)) as [Hst _].
  eexists.
  destruct (Hst (with_passengers 41) _ _ ltac:(vm_compute; reflexivity))
    as (Hget & Hcap & Hn & Hne & _).
  split; [exact Hget|]. split; [exact Hn|].
  rewrite Hne; [vm_compute; reflexivity | vm_compute; discriminate].
Defined.

(** C2 (the claim as stated fails). Driver [d1] sends a status mutation
    for bus [v1] with tier "Full" and no passenger count: the document is
    saved with tier "Full" next to 0 passengers of 45, for which the
    derivation gives "Empty". *)
Lemma seat_tier_drifts :
  exists bus,
    fst (put_status 2000 driver1 "v1" (status_only "active" "Full") w1) = Ok200 bus
    /\ get_bus "v1" (snd (put_status 2000 driver1 "v1"
                            (status_only "active" "Full") w1)) = Some bus
    /\ seatAvailability bus = "Full"
    /\ deriveTier (currentPassengers bus) (capacity bus) = "Empty"
    /\ seatAvailability bus <> deriveTier (currentPassengers bus) (capacity bus).
Proof.
  eexists. split; [vm_compute; reflexivity|].
  split; [vm_compute; reflexivity|].
  split; [reflexivity|].
  split; [vm_compute; reflexivity|].
  vm_compute. discriminate.
Qed.

(** ** Broadcasts and commits *)

(** C4 (as the code has it). A location or status mutation over HTTP that
    commits appends exactly one write to the commit log and then exactly
    one emit to the room of that bus, and one that is refused changes
    nothing; the two socket messages [update-bus-location] and
    [update-bus-status] are relayed to the room as one emit each, with no
    write to the collection. *)
Theorem broadcast_accounting (now : Z) (user : User) (busId : ObjectId)
    (w : World) :
  (forall body,
     match put_location now user busId body w with
     | (Ok200 bus', w') =>
         commits w' = (commits w ++ [(busId, bus')])%list
         /\ sent w' = (sent w ++ [mkEmission (bus_room busId) "bus-location-updated"
                                   (location_event now busId body)
                                   (members (bus_room busId) w)])%list
     | (_, w') => w' = w
     end)
  /\ (forall body,
        match put_status now user busId body w with
        | (Ok200 bus', w') =>
            commits w' = (commits w ++ [(busId, bus')])%list
            /\ exists data,
                 sent w' = (sent w ++ [mkEmission (bus_room busId) "bus-status-updated"
                                        data (members (bus_room busId) w)])%list
        | (_, w') => w' = w
        end)
  /\ (forall body,
        let w' := update_bus_location busId body w in
        commits w' = commits w /\ buses w' = buses w
        /\ sent w' = (sent w ++ [mkEmission (bus_room busId) "bus-location-updated"
                                  (Relayed busId body) (members (bus_room busId) w)])%list)
  /\ (forall body,
        let w' := update_bus_status busId body w in
        commits w' = commits w /\ buses w' = buses w
        /\ sent w' = (sent w ++ [mkEmission (bus_room busId) "bus-status-updated"
                                  (Relayed busId body) (members (bus_room busId) w)])%list).
Proof.
  split; [|split; [|split]]; intros body; [| |done..].
  - destruct (put_location_cases now user busId body w)
      as [(_ & ->)|[(_ & _ & ->)|[(b & _ & _ & _ & ->)|[(b & _ & _ & _ & _ & ->)
         |(b & b' & _ & _ & _ & _ & ->)]]]]; done.
  - destruct (put_status_cases now user busId body w)
      as [(_ & ->)|[(_ & _ & ->)|[(b & _ & _ & _ & ->)|[(b & _ & _ & _ & _ & ->)
         |(b & b' & _ & _ & _ & _ & ->)]]]]; try done.
    split; [done|]. eexists. reflexivity.
Qed.

(** C4 (the claim as stated fails). With bus [v1] registered and socket
    [c1] watching it, one [update-bus-location] message from any socket
    reaches [c1] as a [bus-location-updated] event although the collection
    and the commit log are what they were. *)
Lemma relay_without_commit :
  let w' := step (UpdateBusLocation "v1" "{latitude: 0, longitude: 0}") w1 in
  received "c1" w1 = []
  /\ (exists e, received "c1" w' = [e]
                /\ em_event e = "bus-location-updated"
                /\ em_data e = Relayed "v1" "{latitude: 0, longitude: 0}")
  /\ commits w' = commits w1
  /\ buses w' = buses w1.
Proof.
  cbv zeta. split; [vm_compute; reflexivity|].
  split; [|split; reflexivity].
  eexists. split; [vm_compute; reflexivity|]. split; reflexivity.
Qed.

(** ** Joining a room *)

Lemma members_join socket busId w :
  members (bus_room busId) (join_bus_tracking socket busId w)
  = {[socket]} ∪ members (bus_room busId) w.
Proof.
  unfold members at 1, join_bus_tracking. simpl. by rewrite lookup_insert_eq.
Qed.

(** C5 (as the code has it). Joining adds the socket to the room of the
    bus and sends nothing: the events sent so far, the collection and the
    commit log are unchanged. The socket is a receiver of the next event
    emitted to that room. *)
Theorem join_only_subscribes (socket busId : string) (w : World) :
  let w' := join_bus_tracking socket busId w in
  sent w' = sent w
  /\ received socket w' = received socket w
  /\ buses w' = buses w
  /\ commits w' = commits w
  /\ socket ∈ members (bus_room busId) w'
  /\ forall event data,
       sent (emit (bus_room busId) event data w')
       = (sent w ++ [mkEmission (bus_room busId) event data
                      ({[socket]} ∪ members (bus_room busId) w)])%list.
Proof.
  cbv zeta. repeat split; try done.
  - rewrite members_join. set_solver.
  - intros event data. unfold emit. by rewrite members_join.
Qed.

(** C5 (the claim as stated fails). Socket [c2] joins the room of the
    registered bus [v1] and has been sent nothing afterwards. *)
Lemma join_sends_no_snapshot :
  let w' := join_bus_tracking "c2" "v1" w1 in
  is_Some (get_bus "v1" w')
  /\ sent w' = []
  /\ received "c2" w' = [].
Proof.
  cbv zeta. split; [|split; reflexivity].
  eexists. vm_compute. reflexivity.
Qed.

(** ** Unknown and inactive buses *)





(** ** Passenger count against capacity *)

(** A request either leaves the collection alone or writes one document
    that [save] has accepted. *)
Lemma step_buses r w :
  buses (step r w) = buses w
  \/ exists busId d b, save d = Some b /\ buses (step r w) = <[busId := b]> (buses w).
Proof.
  destruct r as [now newId body|now user busId body|now user busId body
                |user busId| | | |]; simpl; try by left.
  - unfold post_bus. repeat case_match; simpl; try by left.
    right. eauto.
  - destruct (put_location_cases now user busId body w)
      as [(_ & ->)|[(_ & _ & ->)|[(b & _ & _ & _ & ->)|[(b & _ & _ & _ & _ & ->)
         |(b & b' & _ & _ & _ & ? & ->)]]]]; try by left.
    right. eauto.
  - destruct (put_status_cases now user busId body w)
      as [(_ & ->)|[(_ & _ & ->)|[(b & _ & _ & _ & ->)|[(b & _ & _ & _ & _ & ->)
         |(b & b' & _ & _ & _ & ? & ->)]]]]; try by left.
    right. eauto.
  - unfold delete_bus. repeat case_match; simpl; try by left.
    right. eauto.
Qed.

Lemma step_counts_in_bounds r w :
  counts_in_bounds w -> counts_in_bounds (step r w).
Proof.
  intros Hw busId bus.
  destruct (step_buses r w) as [->|(k & d & b & Hs & ->)]; [apply Hw|].
  destruct (decide (k = busId)) as [->|Hne].
  - rewrite lookup_insert_eq. intros [= <-]. by eapply save_bounds.
  - rewrite lookup_insert_ne by done. apply Hw.
Qed.

Lemma run_counts_in_bounds rs w :
  counts_in_bounds w -> counts_in_bounds (run rs w).
Proof.
  revert w. induction rs as [|r rs IH]; intros w Hw; [done|].
  simpl. apply IH. by apply step_counts_in_bounds.
Qed.

(** C7 (as the code has it). In every state the system can reach, every
    stored bus has a passenger count of at least 0 and a capacity between
    1 and 100. *)
Theorem stored_counts_in_bounds (w : World) :
  reachable w -> counts_in_bounds w.
Proof.
  intros (registered & rs & ->). apply run_counts_in_bounds.
  intros busId bus. unfold initial. simpl. by rewrite lookup_empty.
Qed.

Lemma stored_counts_in_bounds_witness :
  exists bus, get_bus "v1" w_crowded = Some bus
              /\ 0 <= currentPassengers bus /\ 1 <= capacity bus <= 100.
Proof.
  assert (Hr : reachable w_crowded).
  { exists drivers, (setup ++ [PutStatus 2000 driver1 "v1" (with_passengers 60)])%list.
    reflexivity. }
  pose proof (stored_counts_in_bounds w_crowded Hr) as Hb.
  eexists. split; [vm_compute; reflexivity|].
  apply (Hb "v1"). vm_compute. reflexivity.
Defined.

(** C7 (the claim as stated fails). Bus [v1] has capacity 45; its driver
    reports 60 passengers; the mutation is committed and the stored
    document holds 60. *)
Lemma occupancy_exceeds_capacity :
  reachable w_crowded
  /\ exists bus, get_bus "v1" w_crowded = Some bus
                 /\ capacity bus = 45
                 /\ currentPassengers bus = 60
                 /\ ~ (currentPassengers bus <= capacity bus).
Proof.
  split.
  - exists drivers, (setup ++ [PutStatus 2000 driver1 "v1" (with_passengers 60)])%list.
    reflexivity.
  - eexists. split; [vm_compute; reflexivity|]. simpl. repeat split. lia.
Qed.

(** ** Ranges of a location mutation *)

(** C9 (as the code has it). A location mutation is accepted only when
    latitude is in [-90,90], longitude in [-180,180], speed (when sent) is
    at least 0 and heading (when sent) is in the closed interval [0,360];
    a missing latitude or longitude, or any value outside these ranges, is
    answered ValidationError with nothing changed. *)
Theorem location_ranges (now : Z) (user : User) (busId : ObjectId)
    (body : LocationBody) (w : World) :
  (forall bus',
     fst (put_location now user busId body w) = Ok200 bus' ->
     exists latitude longitude,
       lb_latitude body = Some latitude /\ lb_longitude body = Some longitude
       /\ (-90 <=? latitude)%float = true /\ (latitude <=? 90)%float = true
       /\ (-180 <=? longitude)%float = true /\ (longitude <=? 180)%float = true
       /\ (forall speed, lb_speed body = Some speed ->
             (0 <=? speed)%float = true)
       /\ (forall heading, lb_heading body = Some heading ->
             (0 <=? heading)%float = true /\ (heading <=? 360)%float = true))
  /\ ((lb_latitude body = None
       \/ lb_longitude body = None
       \/ (exists v, lb_latitude body = Some v
                     /\ Js.isFloat_between (-90) 90 v = false)
       \/ (exists v, lb_longitude body = Some v
                     /\ Js.isFloat_between (-180) 180 v = false)
       \/ (exists v, lb_speed body = Some v /\ Js.isFloat_min 0 v = false)
       \/ (exists v, lb_heading body = Some v
                     /\ Js.isFloat_between 0 360 v = false)) ->
      put_location now user busId body w = (BadRequest400, w)).
Proof.
  split.
  - intros bus' Hok.
    destruct (put_location_cases now user busId body w)
      as [(_ & Hr)|[(_ & _ & Hr)|[(b & _ & _ & _ & Hr)|[(b & _ & _ & _ & _ & Hr)
         |(b & b' & Hv & _ & _ & _ & Hr)]]]]; rewrite Hr in Hok; try done.
    apply valid_location_inv in Hv
      as (lat & lon & Hlat & Hlon & Hla & Hlo & Hs & Hh).
    unfold Js.isFloat_between in Hla, Hlo.
    apply andb_prop in Hla as [? ?]. apply andb_prop in Hlo as [? ?].
    exists lat, lon. split_and!; try done.
    + intros s Hsp. rewrite Hsp in Hs. exact Hs.
    + intros h Hhd. rewrite Hhd in Hh. by apply andb_prop in Hh.
  - intros Hout.
    assert (Hv : valid_location body = false).
    { unfold valid_location.
      destruct Hout as [->|[->|[(v & -> & Hf)|[(v & -> & Hf)|[(v & -> & Hf)
                       |(v & -> & Hf)]]]]]; simpl; rewrite ?Hf;
        rewrite ?andb_false_r; done. }
    destruct (put_location_cases now user busId body w)
      as [(_ & Hr)|[(? & _)|[(b & ? & _)|[(b & ? & _)|(b & b' & ? & _)]]]];
      congruence.
Qed.

Lemma location_ranges_witness :
  put_location 2000 driver1 "v1" bad_latitude w1 = (BadRequest400, w1)
  /\ exists latitude, lb_latitude move = Some latitude
                      /\ (latitude <=? 90)%float = true.
Proof.
  destruct (location_ranges 2000 driver1 "v1" bad_latitude w1) as [_ Hbad].
  destruct (location_ranges 2000 driver1 "v1" move w1) as [Hok _].
  split.
  - apply Hbad. right. right. left. eexists. split; reflexivity.
  - destruct (Hok _ ltac:(vm_compute; reflexivity))
      as (lat & lon & Hlat & _ & _ & Hle & _).
    exists lat. split; [exact Hlat | exact Hle].
Defined.

(** C9 (the claim as stated fails). A location mutation with heading
    exactly 360 is answered 200 and the stored heading is 360, which is
    not below 360. *)
Lemma heading_360_is_accepted :
  exists bus',
    fst (put_location 2000 driver1 "v1" full_turn w1) = Ok200 bus'
    /\ get_bus "v1" (snd (put_location 2000 driver1 "v1" full_turn w1))
       = Some bus'
    /\ heading bus' = 360%float
    /\ (heading bus' <? 360)%float = false.
Proof.
  eexists. split; [vm_compute; reflexivity|].
  split; [vm_compute; reflexivity|]. split; reflexivity.
Qed.

(** ** Nearby buses *)

Section NearbyProperties.

Variable geoDistance : list float -> list float -> Q.

#[local] Instance nearer_transitive origin : Transitive (nearer geoDistance origin).
Proof. intros a b c. unfold nearer. apply Qle_trans. Qed.

#[local] Instance nearer_total origin : Total (nearer geoDistance origin).
Proof.
  intros a b. unfold nearer.
  destruct (Qlt_le_dec (geoDistance origin (coordinates a))
                       (geoDistance origin (coordinates b))) as [Hlt|Hle].
  - left. by apply Qlt_le_weak.
  - by right.
Qed.

Lemma near_match_true origin maxDistance b :
  near_match geoDistance origin maxDistance b = true
  <-> (geoDistance origin (coordinates b) <= inject_Z maxDistance)%Q
      /\ status b = "active" /\ isActive b = true.
Proof.
  unfold near_match. rewrite !andb_true_iff, Qle_bool_iff, String.eqb_eq.
  destruct (isActive b); simpl; intuition congruence.
Qed.

(** The documents [findNearby] returns are exactly the stored ones that
    match the query. *)
Lemma findNearby_elem origin maxDistance (collection : gmap ObjectId Bus) b :
  b ∈ findNearby geoDistance origin maxDistance collection
  <-> (exists busId, collection !! busId = Some b)
      /\ near_match geoDistance origin maxDistance b = true.
Proof.
  unfold findNearby. rewrite merge_sort_Permutation.
  rewrite list_elem_of_In, filter_In, <- list_elem_of_In.
  rewrite list_elem_of_fmap. split.
  - intros [([k v] & -> & Hin%elem_of_map_to_list) Hm]. eauto.
  - intros [(k & Hk) Hm]. split; [|done].
    exists (k, b). split; [done|]. by apply elem_of_map_to_list.
Qed.

Lemma findNearby_sorted origin maxDistance (collection : gmap ObjectId Bus) :
  StronglySorted (nearer geoDistance origin)
    (findNearby geoDistance origin maxDistance collection).
Proof. unfold findNearby. apply StronglySorted_merge_sort; apply _. Qed.

(** C8 (as the code has it). A nearby query that is answered returns,
    for the point and the radius taken from the query string (radius 5000
    when none is given), exactly the stored buses whose status is "active",
    whose [isActive] is true and which lie within the radius, sorted
    ascending by distance. No query key bounds how many are returned:
    every matching bus is in the result, and the keys other than
    [latitude], [longitude] and [maxDistance] do not change the answer. *)
Theorem nearby_result (req : NearbyRequest) (w : World)
    (maxDistance : Z) (result : list Bus) :
  get_nearby geoDistance req w = Nearby200 maxDistance result ->
  let origin := [default nan (q_longitude req); default nan (q_latitude req)] in
  maxDistance = default 5000 (q_maxDistance req)
  /\ (forall b, b ∈ result ->
        (geoDistance origin (coordinates b) <= inject_Z maxDistance)%Q
        /\ status b = "active" /\ isActive b = true
        /\ exists busId, buses w !! busId = Some b)
  /\ StronglySorted (nearer geoDistance origin) result
  /\ (forall busId b,
        buses w !! busId = Some b ->
        (geoDistance origin (coordinates b) <= inject_Z maxDistance)%Q ->
        status b = "active" -> isActive b = true -> b ∈ result)
  /\ (forall pla plo others,
        get_nearby geoDistance
          (mkNearbyRequest pla plo (q_latitude req) (q_longitude req)
             (q_maxDistance req) others) w
        = Nearby200 maxDistance result).
Proof.
  unfold get_nearby. intros H. cbv zeta.
  destruct (valid_coordinates _ && _) eqn:Hok; [|done].
  injection H as <- <-.
  split; [done|]. split; [|split; [|split]].
  - intros b [Hex Hm]%findNearby_elem.
    apply near_match_true in Hm as (Hd & Hs & Ha). done.
  - apply findNearby_sorted.
  - intros busId b Hb Hd Hs Ha. apply findNearby_elem. split; [eauto|].
    by apply near_match_true.
  - intros pla plo others. cbn [q_latitude q_longitude q_maxDistance].
    by rewrite Hok.
Qed.

End NearbyProperties.

Lemma nearby_result_witness :
  exists result,
    get_nearby flat_metres (at_depot []) two_buses = Nearby200 500 result
    /\ StronglySorted (nearer flat_metres [85.8189%float; 20.2961%float]) result
    /\ forall b, b ∈ result -> status b = "active" /\ isActive b = true.
Proof.
  eexists. split; [vm_compute; reflexivity|].
  destruct (nearby_result flat_metres (at_depot []) two_buses 500 _
              ltac:(vm_compute; reflexivity)) as (_ & Hin & Hsorted & _).
  split; [exact Hsorted|].
  intros b Hb. destruct (Hin b Hb) as (_ & Hs & Ha & _). by split.
Defined.

(** C8 (the claim as stated fails). Two buses in service stand at the
    depot; a query at the depot with [limit=1] in its query string is
    answered with both of them. *)
Lemma nearby_ignores_limit :
  exists result,
    get_nearby flat_metres (at_depot [("limit", "1")]) two_buses
      = Nearby200 500 result
    /\ length result = 2%nat
    /\ ~ (length result <= 1)%nat.
Proof.
  eexists. split; [vm_compute; reflexivity|]. simpl. split; [done|lia].
Qed.

(** * Further properties of the model *)

Import JsMath BusVirtuals Listing Outcomes Runs Fleet.

Set Warnings "-clear-no-such-hyp".

(** ** What [save] lets into the collection *)

Lemma deriveTier_in_tiers occupancy capacity :
  Js.isIn (deriveTier occupancy capacity) seatTiers = true.
Proof.
  unfold deriveTier.
  destruct (percentage occupancy capacity =? 0)%float; [reflexivity|].
  destruct (90 <=? percentage occupancy capacity)%float; reflexivity.
Qed.

(** The document [save] writes passes the schema itself, also after the
    hook has replaced the tier. *)
Lemma save_validates d b : save d = Some b -> validate b = true.
Proof.
  intros [Hv ->]%save_Some. unfold pre_save.
  destruct (passengersModified d); [|done].
  unfold validate in *.
  cbn -[Js.isIn valid_coordinates valid_notes Z.leb PrimFloat.leb String.eqb
        deriveTier].
  split_checks Hv. rewrite deriveTier_in_tiers.
  repeat match goal with E : _ = true |- _ => rewrite E; clear E end.
  reflexivity.
Qed.

Lemma step_all_valid r w : all_valid w -> all_valid (step r w).
Proof.
  intros Hw busId bus.
  destruct (step_buses r w) as [->|(k & d & b & Hs & ->)]; [apply Hw|].
  destruct (decide (k = busId)) as [->|Hne].
  - rewrite lookup_insert_eq. intros [= <-]. by eapply save_validates.
  - rewrite lookup_insert_ne by done. apply Hw.
Qed.

Lemma run_all_valid rs w : all_valid w -> all_valid (run rs w).
Proof.
  revert w. induction rs as [|r rs IH]; intros w Hw; [done|].
  simpl. apply IH. by apply step_all_valid.
Qed.

Lemma reachable_valid w busId bus :
  reachable w -> buses w !! busId = Some bus -> validate bus = true.
Proof.
  intros (registered & rs & ->) Hbus.
  eapply (run_all_valid rs (initial registered)); [|exact Hbus].
  intros k b. unfold initial. simpl. by rewrite lookup_empty.
Qed.

(** X1. In every state the system can reach, every stored bus passes the
    whole schema validation: its coordinates are a longitude/latitude
    pair in range, destination, status and tier are values of the
    schema's lists, speed is not negative, heading is in [0,360] and the
    notes are at most 500 characters long. *)
Theorem stored_buses_are_valid (w : World) (busId : ObjectId) (bus : Bus) :
  reachable w -> buses w !! busId = Some bus ->
  validate bus = true
  /\ valid_coordinates (coordinates bus) = true
  /\ In (destination bus) destinations
  /\ In (status bus) statuses
  /\ In (seatAvailability bus) seatTiers.
Proof.
  intros Hr Hbus.
  pose proof (reachable_valid w busId bus Hr Hbus) as Hv.
  split; [exact Hv|]. unfold validate in Hv. split_checks Hv.
  repeat split; try done; by apply isIn_true.
Qed.

Lemma stored_buses_are_valid_witness :
  exists bus, get_bus "v1" w_crowded = Some bus
              /\ validate bus = true
              /\ In (seatAvailability bus) seatTiers.
Proof.
  assert (Hr : reachable w_crowded).
  { exists drivers,
      (setup ++ [PutStatus 2000 driver1 "v1" (with_passengers 60)])%list.
    reflexivity. }
  eexists. split; [vm_compute; reflexivity|].
  destruct (stored_buses_are_valid w_crowded "v1" _ Hr
              ltac:(vm_compute; reflexivity)) as (Hv & _ & _ & _ & Ht).
  split; [exact Hv | exact Ht].
Defined.

(** ** The replies of a location mutation *)





(** ** The replies of a status mutation *)

Lemma status_doc_validate now body bus :
  validate bus = true -> valid_status body = true ->
  validate (fields (status_doc now body bus))
  = negb (bad_destination body) && negb (long_notes body).
Proof.
  intros Hv Hb.
  apply valid_status_inv in Hb as (st & seat & Hst & Hseat & Hsti & Hsei & Hcp).
  unfold status_doc, assign_status, bad_destination, long_notes.
  rewrite Hst, Hseat. cbn [default].
  unfold validate in *. split_checks Hv.
  destruct (sb_currentPassengers body) as [n|];
    destruct (sb_destination body) as [dst|];
    destruct (sb_notes body) as [nt|];
    repeat match goal with
           | |- context [Js.truthy_str ?v] => destruct (Js.truthy_str v)
           end;
    cbn -[Js.isIn valid_coordinates Z.leb PrimFloat.leb String.eqb Nat.leb
          String.length];
    cbn in Hcp; unfold Js.isInt_min in Hcp;
    rewrite ?Hsti, ?Hsei, ?Hcp;
    repeat match goal with E : _ = true |- _ => rewrite E; clear E end;
    cbn [andb negb];
    rewrite ?andb_true_r, ?negb_involutive; reflexivity.
Qed.

(** X3. In every state the system can reach, a status mutation that has
    passed the route's validators and the ownership check on a stored bus
    is answered 500, with nothing changed and nothing broadcast, exactly
    when its body names a non-empty destination outside the schema's list
    or carries notes longer than 500 characters (neither is checked by the
    route's validators); in every other case it is committed and answered
    200. *)
Theorem status_reply_is_decided (now : Z) (user : User) (busId : ObjectId)
    (body : StatusBody) (w : World) (bus : Bus) :
  reachable w -> buses w !! busId = Some bus ->
  valid_status body = true -> other_drivers_bus user bus = false ->
  (bad_destination body || long_notes body = true ->
     put_status now user busId body w = (ServerError500, w))
  /\ (bad_destination body || long_notes body = false ->
        exists bus',
          put_status now user busId body w
          = (Ok200 bus', status_committed now busId body bus' w)).
Proof.
  intros Hr Hbus Hb Ho.
  pose proof (reachable_valid w busId bus Hr Hbus) as Hv.
  pose proof (status_doc_validate now body bus Hv Hb) as Hd.
  destruct (put_status_cases now user busId body w)
    as [(? & _)|[(_ & ? & _)|[(b & _ & ? & ? & _)|[(b & _ & ? & _ & Hs & Hp)
       |(b & b' & _ & ? & _ & Hs & Hp)]]]]; simplify_eq; try congruence.
  - split; [done|]. intros Hok. unfold save in Hs. rewrite Hd in Hs.
    apply orb_false_iff in Hok as [H1 H2]. rewrite H1, H2 in Hs. done.
  - split; [|eauto]. intros Hbad. apply save_Some in Hs as [Hs _].
    rewrite Hd in Hs. apply andb_prop in Hs as [H1 H2].
    apply negb_true_iff in H1, H2. rewrite H1, H2 in Hbad. done.
Qed.

Lemma status_reply_is_decided_witness :
  put_status 2000 driver1 "v1"
    (mkStatusBody (Some "active") (Some "Empty") None (Some "Campus 99") None) w1
  = (ServerError500, w1)
  /\ exists bus',
       fst (put_status 2000 driver1 "v1"
              (mkStatusBody (Some "active") (Some "Empty") None (Some "") None) w1)
       = Ok200 bus'.
Proof.
  assert (Hr : reachable w1) by (exists drivers, setup; reflexivity).
  split.
  - eapply (status_reply_is_decided 2000 driver1 "v1" _ w1 _ Hr);
      vm_compute; reflexivity.
  - destruct (status_reply_is_decided 2000 driver1 "v1"
      (mkStatusBody (Some "active") (Some "Empty") None (Some "") None) w1 _ Hr
      ltac:(vm_compute; reflexivity) ltac:(reflexivity) ltac:(reflexivity))
      as [_ Hok].
    destruct (Hok ltac:(reflexivity)) as [bus' Hp].
    exists bus'. by rewrite Hp.
Defined.

(** ** One bus at a time *)

Lemma buses_emit room event data w : buses (emit room event data w) = buses w.
Proof. done. Qed.

(** X4. A location mutation, a status mutation and a deactivation change
    no document other than the addressed one, no user and no room,
    whatever their reply; and a deactivation emits nothing. *)
Theorem mutation_touches_one_bus (now : Z) (user : User) (busId other : ObjectId)
    (w : World) :
  other <> busId ->
  (forall body,
     let w' := snd (put_location now user busId body w) in
     buses w' !! other = buses w !! other
     /\ users w' = users w /\ rooms w' = rooms w)
  /\ (forall body,
        let w' := snd (put_status now user busId body w) in
        buses w' !! other = buses w !! other
        /\ users w' = users w /\ rooms w' = rooms w)
  /\ (let w' := snd (delete_bus user busId w) in
      buses w' !! other = buses w !! other
      /\ users w' = users w /\ rooms w' = rooms w /\ sent w' = sent w).
Proof.
  intros Hne. split; [|split].
  - intros body. cbv zeta.
    destruct (put_location_cases now user busId body w)
      as [(_ & ->)|[(_ & _ & ->)|[(b & _ & _ & _ & ->)|[(b & _ & _ & _ & _ & ->)
         |(b & b' & _ & _ & _ & _ & ->)]]]]; try done.
    simpl. by rewrite lookup_insert_ne.
  - intros body. cbv zeta.
    destruct (put_status_cases now user busId body w)
      as [(_ & ->)|[(_ & _ & ->)|[(b & _ & _ & _ & ->)|[(b & _ & _ & _ & _ & ->)
         |(b & b' & _ & _ & _ & _ & ->)]]]]; try done.
    simpl. by rewrite lookup_insert_ne.
  - cbv zeta. unfold delete_bus. repeat case_match; try done.
    simpl. by rewrite lookup_insert_ne.
Qed.

Lemma mutation_touches_one_bus_witness :
  buses (snd (put_status 2000 driver1 "v1" (with_passengers 30) two_buses))
    !! "v2"
  = buses two_buses !! "v2".
Proof.
  destruct (mutation_touches_one_bus 2000 driver1 "v1" "v2" two_buses
              ltac:(discriminate)) as (_ & Hst & _).
  apply (Hst (with_passengers 30)).
Defined.

(** ** Deactivation *)

Lemma validate_set_isActive v b : validate (set_isActive v b) = validate b.
Proof. done. Qed.



(** ** Registration *)

Lemma busNumber_taken_false n w :
  busNumber_taken n w = false ->
  forall k b, buses w !! k = Some b -> busNumber b <> n.
Proof.
  unfold busNumber_taken. intros Hf k b Hb Heq.
  assert (Ht : existsb (fun kv => String.eqb (busNumber (snd kv)) n)
                 (map_to_list (buses w)) = true).
  { apply existsb_exists. exists (k, b). split.
    - apply list_elem_of_In. by apply elem_of_map_to_list.
    - simpl. by apply String.eqb_eq. }
  congruence.
Qed.

Lemma busNumber_taken_true n w :
  busNumber_taken n w = true ->
  exists k b, buses w !! k = Some b /\ busNumber b = n.
Proof.
  unfold busNumber_taken. intros ([k b] & Hin & Heq)%existsb_exists.
  exists k, b. split.
  - by apply elem_of_map_to_list, list_elem_of_In.
  - by apply String.eqb_eq.
Qed.

(** Every way [POST /] can end well. *)
Lemma post_bus_created now newId body w bus w' :
  post_bus now newId body w = (Created201 bus, w') ->
  exists number driver capacity destination u,
    nb_busNumber body = Some number /\ nb_driverId body = Some driver
    /\ nb_capacity body = Some capacity /\ nb_destination body = Some destination
    /\ busNumber_taken number w = false
    /\ users w !! driver = Some u /\ u_role u = "driver"
    /\ buses w !! newId = None
    /\ bus = new_bus now number driver capacity destination (nb_route body)
    /\ validate bus = true
    /\ w' = set_assignedBus driver newId (store newId bus w).
Proof.
  unfold post_bus. intros H.
  repeat case_match; simplify_eq.
  match goal with
  | Hs : save _ = Some _ |- _ => apply save_Some in Hs as [Hv ->]
  end.
  match goal with
  | Hr : negb (String.eqb (u_role _) "driver") = false |- _ =>
      apply negb_false_iff, String.eqb_eq in Hr
  end.
  do 5 eexists. split_and!; try done.
Qed.

(** Any other reply of [POST /] leaves everything as it was. *)
Lemma post_bus_refused now newId body w :
  (exists bus, fst (post_bus now newId body w) = Created201 bus)
  \/ snd (post_bus now newId body w) = w.
Proof.
  unfold post_bus. repeat case_match; simpl; eauto.
Qed.



(** ** Bus numbers *)

Lemma pre_save_busNumber d : busNumber (pre_save d) = busNumber (fields d).
Proof. unfold pre_save. by destruct (passengersModified d). Qed.

Lemma status_doc_busNumber now body bus :
  busNumber (fields (status_doc now body bus)) = busNumber bus.
Proof.
  unfold status_doc, assign_status.
  destruct (sb_currentPassengers body), (sb_destination body), (sb_notes body);
    repeat match goal with
           | |- context [Js.truthy_str ?v] => destruct (Js.truthy_str v)
           end;
    reflexivity.
Qed.

(** A request leaves the collection alone, rewrites a stored document
    under its number, or adds a document under a free id with a number
    no stored document has. *)
Lemma step_buses_number r w :
  buses (step r w) = buses w
  \/ exists busId b',
       buses (step r w) = <[busId := b']> (buses w)
       /\ ((exists b, buses w !! busId = Some b /\ busNumber b' = busNumber b)
           \/ (buses w !! busId = None
               /\ forall k b, buses w !! k = Some b -> busNumber b <> busNumber b')).
Proof.
  destruct r as [now newId body|now user busId body|now user busId body
                |user busId| | | |]; simpl; try by left.
  - destruct (post_bus now newId body w) as [reply w'] eqn:Hp.
    destruct (post_bus_refused now newId body w) as [[bus Hb]|Hw].
    + rewrite Hp in Hb. simpl in Hb. subst reply.
      apply post_bus_created in Hp
        as (n & d & c & dst & u & _ & _ & _ & _ & Htaken & _ & _ & Hfree
            & -> & _ & ->).
      right. eexists _, _. split; [reflexivity|]. right. split; [done|].
      intros k b Hb. simpl. by eapply busNumber_taken_false.
    + rewrite Hp in Hw. simpl in *. subst. by left.
  - destruct (put_location_cases now user busId body w)
      as [(_ & ->)|[(_ & _ & ->)|[(b & _ & _ & _ & ->)|[(b & _ & _ & _ & _ & ->)
         |(b & b' & _ & Hb & _ & [_ ->]%save_Some & ->)]]]]; try by left.
    right. eexists _, _. split; [reflexivity|]. left. exists b.
    split; [done|]. by rewrite pre_save_busNumber.
  - destruct (put_status_cases now user busId body w)
      as [(_ & ->)|[(_ & _ & ->)|[(b & _ & _ & _ & ->)|[(b & _ & _ & _ & _ & ->)
         |(b & b' & _ & Hb & _ & [_ ->]%save_Some & ->)]]]]; try by left.
    right. eexists _, _. split; [reflexivity|]. left. exists b.
    split; [done|]. by rewrite pre_save_busNumber, status_doc_busNumber.
  - unfold delete_bus. destruct (buses w !! busId) as [b|] eqn:Hb; [|by left].
    destruct (negb _); [by left|].
    destruct (save _) as [b'|] eqn:Hs; [|by left].
    apply save_Some in Hs as [_ ->].
    right. eexists _, _. split; [reflexivity|]. left. exists b. by split.
Qed.

Lemma step_unique_numbers r w : unique_numbers w -> unique_numbers (step r w).
Proof.
  intros Hw.
  destruct (step_buses_number r w) as [Heq|(k & b' & Heq & Hcase)];
    unfold unique_numbers; rewrite Heq; [exact Hw|].
  intros id1 id2 b1 b2 H1 H2 Hn.
  destruct (decide (id1 = id2)) as [|Hne]; [done|]. exfalso.
  destruct (decide (k = id1)) as [->|Hk1];
    [rewrite lookup_insert_eq in H1; rewrite lookup_insert_ne in H2 by done
    |rewrite lookup_insert_ne in H1 by done;
     destruct (decide (k = id2)) as [->|Hk2];
       [rewrite lookup_insert_eq in H2
       |rewrite lookup_insert_ne in H2 by done]];
    simplify_eq.
  - destruct Hcase as [(b & Hb & Hnb)|[_ Hfresh]].
    + apply Hne. eapply Hw; eauto. congruence.
    + by eapply Hfresh.
  - destruct Hcase as [(b & Hb & Hnb)|[_ Hfresh]].
    + apply Hne. eapply Hw; eauto. congruence.
    + by eapply Hfresh.
  - apply Hne. eapply Hw; eauto.
Qed.

Lemma run_unique_numbers rs w : unique_numbers w -> unique_numbers (run rs w).
Proof.
  revert w. induction rs as [|r rs IH]; intros w Hw; [done|].
  simpl. apply IH. by apply step_unique_numbers.
Qed.

(** X7. In every state the system can reach, no two stored buses share a
    bus number: registration refuses a number that is taken, and no other
    route changes the number of a bus. *)
Theorem bus_numbers_are_unique (w : World) (id1 id2 : ObjectId) (b1 b2 : Bus) :
  reachable w ->
  buses w !! id1 = Some b1 -> buses w !! id2 = Some b2 ->
  busNumber b1 = busNumber b2 -> id1 = id2.
Proof.
  intros (registered & rs & ->).
  apply (run_unique_numbers rs (initial registered)).
  intros k1 k2 c1 c2. unfold initial. simpl. by rewrite lookup_empty.
Qed.

Lemma bus_numbers_are_unique_witness :
  fst (post_bus 2000 "v3" v1_body two_buses) = BadRequest400
  /\ forall k b, buses two_buses !! k = Some b -> busNumber b = "KIIT-01" ->
                 k = "v1".
Proof.
  split; [vm_compute; reflexivity|].
  intros k b Hb Hn.
  apply (bus_numbers_are_unique two_buses k "v1" b
           (set_lastUpdated 1002
              (set_status "active"
                 (new_bus 1000 "KIIT-01" "d1" 45 "Main Campus" None)))).
  - eexists drivers, _. reflexivity.
  - exact Hb.
  - vm_compute. reflexivity.
  - exact Hn.
Defined.

(** ** What an event says against what is stored *)

(** X8. The event of a committed location mutation is the last one sent,
    goes to the room of the bus and carries the latitude, longitude, speed
    and heading that the stored document now holds (the coordinates
    stored longitude first, a speed or heading that was not sent as 0). The
    event of a committed status mutation carries the stored status,
    passenger count and destination; its tier is the one of the request
    body, while the stored tier is that one or, when the passenger count
    was changed by the request, the derived one. *)
Theorem events_match_the_store (now : Z) (user : User) (busId : ObjectId)
    (w : World) :
  (forall body bus' w',
     put_location now user busId body w = (Ok200 bus', w') ->
     get_bus busId w' = Some bus'
     /\ exists latitude longitude speed heading,
          last (sent w')
          = Some (mkEmission (bus_room busId) "bus-location-updated"
                    (LocationUpdated busId latitude longitude speed heading now)
                    (members (bus_room busId) w))
          /\ lb_latitude body = Some latitude
          /\ lb_longitude body = Some longitude
          /\ coordinates bus' = [longitude; latitude]
          /\ BusModel.speed bus' = speed /\ speed = default 0%float (lb_speed body)
          /\ BusModel.heading bus' = heading
          /\ heading = default 0%float (lb_heading body)
          /\ lastUpdated bus' = now)
  /\ (forall body bus bus' w',
        buses w !! busId = Some bus ->
        put_status now user busId body w = (Ok200 bus', w') ->
        get_bus busId w' = Some bus'
        /\ exists seatAvailability,
             last (sent w')
             = Some (mkEmission (bus_room busId) "bus-status-updated"
                       (StatusUpdated busId (status bus') seatAvailability
                          (currentPassengers bus') (destination bus') now)
                       (members (bus_room busId) w))
             /\ sb_seatAvailability body = Some seatAvailability
             /\ sb_status body = Some (status bus')
             /\ (BusModel.seatAvailability bus' = seatAvailability
                 \/ (BusModel.seatAvailability bus'
                     = deriveTier (currentPassengers bus') (capacity bus')
                     /\ currentPassengers bus' <> currentPassengers bus))).
Proof.
  split.
  - intros body bus' w' Hput.
    destruct (put_location_cases now user busId body w)
      as [(? & ?)|[(_ & ? & ?)|[(b & _ & ? & ? & ?)|[(b & _ & ? & _ & ? & ?)
         |(b & b' & Hv & ? & _ & Hs & Hr)]]]]; simplify_eq; try congruence.
    rewrite Hr in Hput. injection Hput as <- <-.
    apply save_Some in Hs as [_ ->].
    apply valid_location_inv in Hv as (lat & lon & Hlat & Hlon & _).
    split. { unfold get_bus, location_committed. simpl. apply lookup_insert_eq. }
    exists lat, lon, (default 0%float (lb_speed body)),
      (default 0%float (lb_heading body)).
    unfold location_committed, location_event, emit. simpl.
    rewrite last_snoc, Hlat, Hlon. simpl. split_and!; try done.
    all: unfold location_doc; rewrite ?Hlat, ?Hlon; done.
  - intros body bus bus' w' Hbus Hput.
    destruct (put_status_cases now user busId body w)
      as [(? & ?)|[(_ & ? & ?)|[(b & _ & ? & ? & ?)|[(b & _ & ? & _ & ? & ?)
         |(b & b' & Hv & ? & _ & Hs & Hr)]]]]; simplify_eq; try congruence.
    rewrite Hr in Hput. injection Hput as <- <-.
    apply save_Some in Hs as [_ ->].
    apply valid_status_inv in Hv as (st & seat & Hst & Hseat & _).
    destruct (status_doc_fields now body bus st seat Hst Hseat)
      as (Hsa & Hcap & Hcp & Hmod).
    assert (Hstatus : status (pre_save (status_doc now body bus)) = st).
    { destruct (pre_save_keeps (status_doc now body bus))
        as (_ & _ & _ & _ & _ & ->).
      unfold status_doc, assign_status. rewrite Hst, Hseat. cbn [default].
      destruct (sb_currentPassengers body), (sb_destination body),
        (sb_notes body);
        repeat match goal with
               | |- context [Js.truthy_str ?v] => destruct (Js.truthy_str v)
               end;
        reflexivity. }
    split. { unfold get_bus, status_committed. simpl. apply lookup_insert_eq. }
    exists seat. unfold status_committed, emit. simpl.
    rewrite last_snoc, Hst, Hseat, Hstatus. simpl. split_and!; try done.
    destruct (passengersModified (status_doc now body bus)) eqn:Hm.
    + right.
      destruct (pre_save_keeps (status_doc now body bus)) as (-> & -> & _).
      split; [by apply pre_save_modified|].
      rewrite Hcp.
      destruct (sb_currentPassengers body) as [n|]; [|done].
      simpl. symmetry in Hmod. apply negb_true_iff in Hmod.
      by apply Z.eqb_neq in Hmod.
    + left. by rewrite pre_save_unmodified.
Qed.

Lemma events_match_the_store_witness :
  exists bus' e,
    get_bus "v1" (snd (put_status 2000 driver1 "v1" (with_passengers 41) w1))
      = Some bus'
    /\ last (sent (snd (put_status 2000 driver1 "v1" (with_passengers 41) w1)))
       = Some e
    /\ em_data e = StatusUpdated "v1" "active" "Empty" 41 "Main Campus" 2000
    /\ seatAvailability bus' = "Full".
Proof.
  destruct (events_match_the_store 2000 driver1 "v1" w1) as [_ Hst].
  destruct (Hst (with_passengers 41)
              (new_bus 1000 "KIIT-01" "d1" 45 "Main Campus" None) _ _
              ltac:(vm_compute; reflexivity) ltac:(vm_compute; reflexivity))
    as (Hget & seat & Hlast & _).
  eexists _, _. split; [exact Hget|]. split; [exact Hlast|].
  split; [|vm_compute; reflexivity].
  vm_compute in Hlast. injection Hlast as Hseat. vm_compute. by rewrite Hseat.
Defined.

(** ** Who receives an event *)

Lemma bus_room_inj a b : bus_room a = bus_room b -> a = b.
Proof. unfold bus_room. cbn. intros [= H]. exact H. Qed.

Lemma post_bus_rooms_sent now newId body w :
  rooms (snd (post_bus now newId body w)) = rooms w
  /\ sent (snd (post_bus now newId body w)) = sent w.
Proof.
  destruct (post_bus now newId body w) as [reply w'] eqn:Hp.
  destruct (post_bus_refused now newId body w) as [[bus Hb]|Hw];
    rewrite Hp in *; simpl in *.
  - subst reply. apply post_bus_created in Hp
      as (n & d & c & dst & u & _ & _ & _ & _ & _ & _ & _ & _ & _ & _ & ->).
    done.
  - by subst.
Qed.

(** A request adds a socket to a room only by [join-bus-tracking]. *)
Lemma step_members r w room socket :
  socket ∈ members room (step r w) ->
  socket ∈ members room w
  \/ exists busId, r = JoinBusTracking socket busId /\ room = bus_room busId.
Proof.
  destruct r as [now newId body|now user busId body|now user busId body
                |user busId|s busId| | |s]; simpl.
  - unfold members. destruct (post_bus_rooms_sent now newId body w) as [-> _].
    by left.
  - unfold members.
    destruct (put_location_cases now user busId body w)
      as [(_ & ->)|[(_ & _ & ->)|[(b & _ & _ & _ & ->)|[(b & _ & _ & _ & _ & ->)
         |(b & b' & _ & _ & _ & _ & ->)]]]]; by left.
  - unfold members.
    destruct (put_status_cases now user busId body w)
      as [(_ & ->)|[(_ & _ & ->)|[(b & _ & _ & _ & ->)|[(b & _ & _ & _ & _ & ->)
         |(b & b' & _ & _ & _ & _ & ->)]]]]; by left.
  - unfold members, delete_bus. repeat case_match; by left.
  - destruct (decide (room = bus_room busId)) as [->|Hne].
    + rewrite members_join. intros [->%elem_of_singleton|H]%elem_of_union;
        [right; eauto | by left].
    + unfold members at 1, join_bus_tracking. simpl.
      rewrite lookup_insert_ne by done. by left.
  - by left.
  - by left.
  - unfold members at 1, disconnect. simpl. rewrite lookup_fmap.
    unfold members. destruct (rooms w !! room) as [m|]; simpl; [|by left].
    intros [? _]%elem_of_difference. by left.
Qed.

(** A request sends at most one event, to the sockets that were in the
    room before it. *)
Lemma step_sent r w :
  sent (step r w) = sent w
  \/ exists room event data,
       sent (step r w)
       = (sent w ++ [mkEmission room event data (members room w)])%list.
Proof.
  destruct r as [now newId body|now user busId body|now user busId body
                |user busId|s busId| | |s]; simpl; try by left.
  - destruct (post_bus_rooms_sent now newId body w) as [_ ->]. by left.
  - destruct (put_location_cases now user busId body w)
      as [(_ & ->)|[(_ & _ & ->)|[(b & _ & _ & _ & ->)|[(b & _ & _ & _ & _ & ->)
         |(b & b' & _ & _ & _ & _ & ->)]]]]; try by left.
    right. by eexists _, _, _.
  - destruct (put_status_cases now user busId body w)
      as [(_ & ->)|[(_ & _ & ->)|[(b & _ & _ & _ & ->)|[(b & _ & _ & _ & _ & ->)
         |(b & b' & _ & _ & _ & _ & ->)]]]]; try by left.
    right. by eexists _, _, _.
  - unfold delete_bus. repeat case_match; by left.
  - right. by eexists _, _, _.
  - right. by eexists _, _, _.
Qed.

Lemma run_receivers rs w e socket :
  e ∈ sent (run rs w) -> socket ∈ em_receivers e ->
  e ∈ sent w
  \/ socket ∈ members (em_room e) w
  \/ exists busId, em_room e = bus_room busId /\ joined rs socket busId.
Proof.
  revert w. induction rs as [|r rs IH]; intros w He Hs; [by left|].
  simpl in He. destruct (IH _ He Hs) as [Hin|[Hm|(busId & Hroom & Hj)]].
  - destruct (step_sent r w) as [Heq|(room & ev & data & Heq)];
      rewrite Heq in Hin; [by left|].
    apply elem_of_app in Hin as [Hin|Hin%list_elem_of_singleton]; [by left|].
    subst e. right. left. exact Hs.
  - apply step_members in Hm as [Hm|(busId & -> & Hroom)].
    + right. by left.
    + right. right. exists busId. split; [done|]. unfold joined. set_solver.
  - right. right. exists busId. split; [done|]. unfold joined in *. set_solver.
Qed.

(** X9. Whatever requests have been handled since the server started, a
    socket has been sent an event of the room of bus B only if it had
    asked, by [join-bus-tracking], to track B: no event reaches a socket
    for a bus it never joined. *)
Theorem events_reach_only_joiners (registered : gmap ObjectId UserDoc)
    (rs : list Request) (socket : string) (e : Emission) :
  e ∈ received socket (run rs (initial registered)) ->
  (exists busId, em_room e = bus_room busId /\ joined rs socket busId)
  /\ (forall busId, em_room e = bus_room busId -> joined rs socket busId).
Proof.
  unfold received. intros [Hs He]%list_elem_of_filter.
  assert (H : exists busId, em_room e = bus_room busId /\ joined rs socket busId).
  { destruct (run_receivers rs _ e socket He Hs) as [Hin|[Hm|H]]; [| |done].
    - by apply elem_of_nil in Hin.
    - unfold members, initial in Hm. simpl in Hm.
      rewrite lookup_empty in Hm. set_solver. }
  split; [done|]. intros busId Hroom.
  destruct H as (b & Hb & Hj). rewrite Hb in Hroom.
  by apply bus_room_inj in Hroom as ->.
Qed.

Lemma events_reach_only_joiners_witness :
  exists e,
    received "c1" (run (setup ++ [PutLocation 2000 driver1 "v1" move])%list
                     (initial drivers)) = [e]
    /\ joined (setup ++ [PutLocation 2000 driver1 "v1" move])%list "c1" "v1".
Proof.
  eexists. split; [vm_compute; reflexivity|].
  eapply (events_reach_only_joiners drivers _ "c1").
  - apply list_elem_of_In. vm_compute. left. reflexivity.
  - reflexivity.
Defined.

(** ** Joining twice *)

(** X10. Asking twice to track the same bus leaves the server as asking
    once does, and the socket is then sent the next event of that room
    once. *)
Theorem join_is_idempotent (socket busId : string) (w : World) :
  join_bus_tracking socket busId (join_bus_tracking socket busId w)
  = join_bus_tracking socket busId w
  /\ forall event data,
       received socket
         (emit (bus_room busId) event data
            (join_bus_tracking socket busId (join_bus_tracking socket busId w)))
       = (received socket w
            ++ [mkEmission (bus_room busId) event data
                  ({[socket]} ∪ members (bus_room busId) w)])%list.
Proof.
  assert (Heq : join_bus_tracking socket busId (join_bus_tracking socket busId w)
                = join_bus_tracking socket busId w).
  { unfold join_bus_tracking at 1. rewrite members_join.
    unfold join_bus_tracking. simpl. rewrite insert_insert_eq.
    assert ({[socket]} ∪ ({[socket]} ∪ members (bus_room busId) w)
            = {[socket]} ∪ members (bus_room busId) w) as -> by set_solver.
    done. }
  split; [exact Heq|]. intros event data. rewrite Heq.
  unfold received, emit. rewrite members_join. simpl.
  rewrite filter_app, filter_cons_True by (simpl; set_solver). done.
Qed.

(** ** The two listing routes *)

#[local] Instance newer_transitive : Transitive newer.
Proof. intros a b c. unfold newer. lia. Qed.

#[local] Instance newer_total : Total newer.
Proof. intros a b. unfold newer. lia. Qed.

Lemma StronglySorted_sublist {A} (R : relation A) l1 l2 :
  l1 `sublist_of` l2 -> StronglySorted R l2 -> StronglySorted R l1.
Proof.
  induction 1 as [|x l1 l2 Hsub IH|x l1 l2 Hsub IH]; intros Hs.
  - constructor.
  - apply StronglySorted_inv in Hs as [Hs Hall]. constructor; [auto|].
    rewrite Forall_forall in *. intros y Hy. apply Hall.
    by eapply elem_of_sublist.
  - apply StronglySorted_inv in Hs as [Hs _]. auto.
Qed.

(** The documents a search returns are the stored ones that match, each
    under its own id. *)
Lemma find_newest_first_elem matches (collection : gmap ObjectId Bus) k b :
  (k, b) ∈ find_newest_first matches collection
  <-> collection !! k = Some b /\ matches b = true.
Proof.
  unfold find_newest_first. rewrite merge_sort_Permutation.
  rewrite list_elem_of_In, filter_In, <- list_elem_of_In.
  rewrite elem_of_map_to_list. done.
Qed.

Lemma find_newest_first_sorted matches (collection : gmap ObjectId Bus) :
  StronglySorted newer (find_newest_first matches collection).
Proof. unfold find_newest_first. apply StronglySorted_merge_sort; apply _. Qed.

Lemma find_newest_first_NoDup matches (collection : gmap ObjectId Bus) :
  NoDup ((find_newest_first matches collection).*1).
Proof.
  unfold find_newest_first. rewrite merge_sort_Permutation.
  eapply sublist_NoDup; [apply (NoDup_fst_map_to_list collection)|].
  apply fmap_sublist.
  induction (map_to_list collection) as [|x l IH]; simpl; [constructor|].
  destruct (matches x.2); by constructor.
Qed.

Lemma find_newest_first_length matches (collection : gmap ObjectId Bus) :
  length (find_newest_first matches collection)
  = length (List.filter (fun kv => matches (snd kv)) (map_to_list collection)).
Proof. unfold find_newest_first. by rewrite merge_sort_Permutation. Qed.

Lemma cursor_page_sublist {A} (n : Z) (k : nat) (l : list A) :
  cursor_limit n (drop k l) `sublist_of` l.
Proof.
  unfold cursor_limit. destruct (n =? 0).
  - apply sublist_drop.
  - etrans; [apply sublist_take | apply sublist_drop].
Qed.

Lemma list_filter_true q b :
  list_filter q b = true
  <-> isActive b = true
      /\ (forall s, lq_status q = Some s -> s <> "" -> status b = s)
      /\ (forall s, lq_destination q = Some s -> s <> "" -> destination b = s).
Proof.
  unfold list_filter, Js.truthy_str. rewrite !andb_true_iff.
  destruct (isActive b); simpl; [|naive_solver].
  destruct (lq_status q) as [s|], (lq_destination q) as [d|];
    repeat match goal with
           | |- context [String.eqb ?x ""] => destruct (String.eqb_spec x "")
           end;
    simpl; rewrite ?String.eqb_eq; naive_solver.
Qed.

(** X11. [GET /] is answered exactly when [(page - 1) * limit] is not
    negative ([limit] 50 and [page] 1 when not given). The page it then
    returns holds only stored buses whose [isActive] is true and whose
    status and destination equal the non-empty ones of the query string,
    each at most once, the later [lastUpdated] first, and at most [limit]
    of them when [limit] is positive; [total] counts every stored bus that
    matches, whatever the page and the limit; and the first page holds
    every matching bus when they are no more than a positive [limit]. *)
Theorem listing_page (q : ListQuery) (w : World) :
  let limit := default 50 (lq_limit q) in
  let page := default 1 (lq_page q) in
  ((page - 1) * limit < 0 -> get_buses q w = List500)
  /\ (0 <= (page - 1) * limit ->
      exists result total pages,
        get_buses q w = List200 result page limit total pages
        /\ (forall k b, (k, b) ∈ result ->
              buses w !! k = Some b /\ isActive b = true
              /\ (forall s, lq_status q = Some s -> s <> "" -> status b = s)
              /\ (forall s, lq_destination q = Some s -> s <> "" ->
                             destination b = s))
        /\ NoDup (result.*1)
        /\ StronglySorted newer result
        /\ (0 < limit -> Z.of_nat (length result) <= limit)
        /\ total
           = Z.of_nat (length (List.filter (fun kv => list_filter q (snd kv))
                                 (map_to_list (buses w))))
        /\ (0 < limit -> page = 1 -> total <= limit ->
            forall k b, buses w !! k = Some b -> list_filter q b = true ->
                        (k, b) ∈ result)).
Proof.
  cbv zeta. unfold get_buses. split.
  - intros Hneg. apply Z.ltb_lt in Hneg. by rewrite Hneg.
  - intros Hpos. apply Z.ltb_ge in Hpos. rewrite Hpos.
    eexists _, _, _. split; [reflexivity|].
    set (matching := find_newest_first (list_filter q) (buses w)).
    set (skip := Z.to_nat ((default 1 (lq_page q) - 1) * default 50 (lq_limit q))).
    pose proof (cursor_page_sublist (default 50 (lq_limit q)) skip matching)
      as Hsub.
    split_and!.
    + intros k b Hin. eapply elem_of_sublist in Hin; [|exact Hsub].
      apply find_newest_first_elem in Hin as [Hb Hm].
      apply list_filter_true in Hm. naive_solver.
    + eapply sublist_NoDup; [apply find_newest_first_NoDup|].
      by apply fmap_sublist.
    + eapply StronglySorted_sublist; [exact Hsub|].
      apply find_newest_first_sorted.
    + intros Hl. unfold cursor_limit.
      destruct (Z.eqb_spec (default 50 (lq_limit q)) 0); [lia|].
      rewrite length_take. lia.
    + f_equal. apply find_newest_first_length.
    + intros Hl Hp Ht k b Hb Hm.
      assert (Hin : (k, b) ∈ matching) by by apply find_newest_first_elem.
      unfold skip. rewrite Hp. simpl. unfold cursor_limit.
      destruct (Z.eqb_spec (default 50 (lq_limit q)) 0); [lia|].
      rewrite take_ge; [done|]. rewrite length_drop. lia.
Qed.

(** X12. [GET /destination/:destination] returns exactly the stored buses
    with that destination whose [isActive] is true and whose status is the
    one of the query string, "active" when none is given, each once and
    the later [lastUpdated] first. *)
Theorem destination_listing (destination : string) (status : option string)
    (w : World) :
  let result := get_by_destination destination status w in
  (forall k b,
     (k, b) ∈ result
     <-> buses w !! k = Some b
         /\ BusModel.destination b = destination
         /\ BusModel.status b = default "active" status
         /\ isActive b = true)
  /\ NoDup (result.*1)
  /\ StronglySorted newer result.
Proof.
  cbv zeta. unfold get_by_destination. split_and!.
  - intros k b. rewrite find_newest_first_elem. unfold destination_filter.
    rewrite !andb_true_iff, !String.eqb_eq.
    destruct (isActive b); simpl; naive_solver.
  - apply find_newest_first_NoDup.
  - apply find_newest_first_sorted.
Qed.

Lemma listing_page_witness :
  exists result,
    get_buses plain_query two_buses = List200 result 1 50 2 (Some 1)
    /\ result.*1 = ["v2"; "v1"]
    /\ StronglySorted newer result.
Proof.
  destruct (listing_page plain_query two_buses) as [_ Hok].
  destruct (Hok ltac:(vm_compute; discriminate))
    as (result & total & pages & Hget & _ & _ & Hsorted & _).
  exists result. split; [rewrite Hget|split; [|exact Hsorted]].
  - vm_compute in Hget. injection Hget as <- <- <-. reflexivity.
  - vm_compute in Hget. injection Hget as <- _ _. reflexivity.
Defined.

(** ** What stays of a bus *)

Lemma later_state_refl b : later_state b b.
Proof. by repeat split. Qed.

Lemma later_state_trans a b c :
  later_state a b -> later_state b c -> later_state a c.
Proof. unfold later_state. intros (?&?&?&?&?) (?&?&?&?&?). split_and!; try congruence. auto. Qed.

Lemma pre_save_later d : later_state (fields d) (pre_save d).
Proof. unfold pre_save. by destruct (passengersModified d). Qed.

Lemma location_doc_later now body b :
  later_state b (fields (location_doc now body b)).
Proof. by repeat split. Qed.

Lemma status_doc_later now body b :
  later_state b (fields (status_doc now body b)).
Proof.
  unfold status_doc, assign_status.
  destruct (sb_currentPassengers body), (sb_destination body), (sb_notes body);
    repeat match goal with
           | |- context [Js.truthy_str ?v] => destruct (Js.truthy_str v)
           end;
    by repeat split.
Qed.

(** A request leaves the collection alone, replaces a stored document by
    a later state of it, or adds a document under a free id. *)
Lemma step_buses_later r w :
  buses (step r w) = buses w
  \/ exists busId b',
       buses (step r w) = <[busId := b']> (buses w)
       /\ ((exists b, buses w !! busId = Some b /\ later_state b b')
           \/ buses w !! busId = None).
Proof.
  destruct r as [now newId body|now user busId body|now user busId body
                |user busId| | | |]; simpl; try by left.
  - destruct (post_bus now newId body w) as [reply w'] eqn:Hp.
    destruct (post_bus_refused now newId body w) as [[bus Hb]|Hw].
    + rewrite Hp in Hb. simpl in Hb. subst reply.
      apply post_bus_created in Hp
        as (n & d & c & dst & u & _ & _ & _ & _ & _ & _ & _ & Hfree
            & -> & _ & ->).
      right. eexists _, _. split; [reflexivity|]. by right.
    + rewrite Hp in Hw. simpl in *. subst. by left.
  - destruct (put_location_cases now user busId body w)
      as [(_ & ->)|[(_ & _ & ->)|[(b & _ & _ & _ & ->)|[(b & _ & _ & _ & _ & ->)
         |(b & b' & _ & Hb & _ & [_ ->]%save_Some & ->)]]]]; try by left.
    right. eexists _, _. split; [reflexivity|]. left. exists b.
    split; [done|apply pre_save_later].
  - destruct (put_status_cases now user busId body w)
      as [(_ & ->)|[(_ & _ & ->)|[(b & _ & _ & _ & ->)|[(b & _ & _ & _ & _ & ->)
         |(b & b' & _ & Hb & _ & [_ ->]%save_Some & ->)]]]]; try by left.
    right. eexists _, _. split; [reflexivity|]. left. exists b.
    split; [done|].
    eapply later_state_trans; [apply status_doc_later | apply pre_save_later].
  - unfold delete_bus. destruct (buses w !! busId) as [b|] eqn:Hb; [|by left].
    destruct (negb _); [by left|].
    destruct (save _) as [b'|] eqn:Hs; [|by left].
    apply save_Some in Hs as [_ ->].
    right. eexists _, _. split; [reflexivity|]. left. exists b.
    split; [done|]. by repeat split.
Qed.

Lemma step_keeps_bus r w busId b :
  buses w !! busId = Some b ->
  exists b', buses (step r w) !! busId = Some b' /\ later_state b b'.
Proof.
  intros Hb.
  destruct (step_buses_later r w) as [->|(k & b' & -> & Hcase)].
  - exists b. split; [done|apply later_state_refl].
  - destruct (decide (k = busId)) as [->|Hne].
    + rewrite lookup_insert_eq. exists b'. split; [done|].
      destruct Hcase as [(b0 & Hb0 & Hl)|Hnone]; congruence.
    + rewrite lookup_insert_ne by done. exists b.
      split; [done|apply later_state_refl].
Qed.

(** X13. Whatever requests follow, a stored bus is never removed from the
    collection, its number, driver, capacity and route never change, and
    once its [isActive] is false it stays false: no route reactivates a
    bus. *)
Theorem registered_bus_persists (rs : list Request) (w : World)
    (busId : ObjectId) (b : Bus) :
  buses w !! busId = Some b ->
  exists b',
    buses (run rs w) !! busId = Some b'
    /\ busNumber b' = busNumber b /\ driverId b' = driverId b
    /\ capacity b' = capacity b /\ route b' = route b
    /\ (isActive b = false -> isActive b' = false).
Proof.
  intros Hb.
  assert (H : exists b', buses (run rs w) !! busId = Some b' /\ later_state b b').
  { revert w b Hb. induction rs as [|r rs IH]; intros w b Hb.
    - exists b. split; [done|apply later_state_refl].
    - simpl. destruct (step_keeps_bus r w busId b Hb) as (b1 & Hb1 & Hl1).
      destruct (IH _ _ Hb1) as (b' & Hb' & Hl').
      exists b'. split; [done|]. by eapply later_state_trans. }
  destruct H as (b' & Hb' & Hn & Hd & Hc & Hr & Ha).
  exists b'. split_and!; try done.
  intros Hf. destruct (isActive b') eqn:E; [|done]. rewrite Ha in Hf; done.
Qed.

Lemma registered_bus_persists_witness :
  exists b',
    buses (run [PutStatus 3000 admin "v1" (status_only "active" "Empty");
                PutLocation 3001 driver1 "v1" move] w_inactive) !! "v1"
    = Some b'
    /\ isActive b' = false /\ capacity b' = 45.
Proof.
  destruct (registered_bus_persists
              [PutStatus 3000 admin "v1" (status_only "active" "Empty");
               PutLocation 3001 driver1 "v1" move]
              w_inactive "v1"
              (set_isActive false
                 (new_bus 1000 "KIIT-01" "d1" 45 "Main Campus" None))
              ltac:(vm_compute; reflexivity))
    as (b' & Hb' & _ & _ & Hc & _ & Ha).
  exists b'. split; [exact Hb'|]. split; [by apply Ha | exact Hc].
Defined.

(** ** Who is listed *)

Lemma delete_bus_by_admin user busId w bus :
  role user = "admin" -> buses w !! busId = Some bus -> validate bus = true ->
  delete_bus user busId w
  = (Deactivated200, store busId (set_isActive false bus) w).
Proof.
  intros Hrole Hbus Hv. unfold delete_bus. rewrite Hbus, Hrole.
  unfold save. simpl. by rewrite validate_set_isActive, Hv.
Qed.

Lemma get_buses_page q w result page limit total pages :
  get_buses q w = List200 result page limit total pages ->
  result `sublist_of` find_newest_first (list_filter q) (buses w).
Proof.
  unfold get_buses. destruct (_ <? 0); [done|].
  intros [= <- _ _ _ _]. apply cursor_page_sublist.
Qed.

(** A stored bus whose [isActive] is false is in no listing. *)
Lemma inactive_not_listed w busId bus :
  buses w !! busId = Some bus -> isActive bus = false ->
  (forall q result page limit total pages,
     get_buses q w = List200 result page limit total pages ->
     forall b, (busId, b) ∉ result)
  /\ (forall destination status b,
        (busId, b) ∉ get_by_destination destination status w)
  /\ (forall geoDistance req maxDistance result,
        get_nearby geoDistance req w = Nearby200 maxDistance result ->
        bus ∉ result).
Proof.
  intros Hbus Hoff. split_and!.
  - intros q result page limit total pages Hget b Hin.
    eapply elem_of_sublist in Hin; [|by eapply get_buses_page].
    apply find_newest_first_elem in Hin as [Hb Hm].
    apply list_filter_true in Hm as [Hon _]. congruence.
  - intros destination status b Hin. unfold get_by_destination in Hin.
    apply find_newest_first_elem in Hin as [Hb Hm].
    unfold destination_filter in Hm. apply andb_prop in Hm as [_ Hon].
    assert (b = bus) as -> by congruence. by rewrite Hoff in Hon.
  - intros geoDistance req maxDistance result Hget Hin.
    unfold get_nearby in Hget. destruct (_ && _); [|done].
    injection Hget as _ <-.
    apply findNearby_elem in Hin as [_ Hm].
    apply near_match_true in Hm as (_ & _ & Hon). congruence.
Qed.

(** X14. In every state the system can reach, a bus an admin has
    deactivated is still returned by [GET /:id], with [isActive] false,
    and is returned by none of [GET /], [GET /destination/:destination]
    and the nearby query, whatever their parameters. *)
Theorem deactivated_bus_is_hidden (user : User) (busId : ObjectId) (w : World)
    (bus : Bus) :
  reachable w -> buses w !! busId = Some bus -> role user = "admin" ->
  let w' := snd (delete_bus user busId w) in
  get_bus busId w' = Some (set_isActive false bus)
  /\ (forall q result page limit total pages,
        get_buses q w' = List200 result page limit total pages ->
        forall b, (busId, b) ∉ result)
  /\ (forall destination status b,
        (busId, b) ∉ get_by_destination destination status w')
  /\ (forall geoDistance req maxDistance result,
        get_nearby geoDistance req w' = Nearby200 maxDistance result ->
        set_isActive false bus ∉ result).
Proof.
  intros Hr Hbus Hrole. cbv zeta.
  pose proof (reachable_valid w busId bus Hr Hbus) as Hv.
  rewrite (delete_bus_by_admin user busId w bus Hrole Hbus Hv). cbn [snd].
  assert (Hget : buses (store busId (set_isActive false bus) w) !! busId
                 = Some (set_isActive false bus)) by apply lookup_insert_eq.
  split; [exact Hget|]. by apply inactive_not_listed.
Qed.

Lemma deactivated_bus_is_hidden_witness :
  exists bus,
    get_bus "v1" (snd (delete_bus admin "v1" two_buses)) = Some bus
    /\ isActive bus = false
    /\ forall b, ("v1", b) ∉ get_by_destination "Main Campus" None
                               (snd (delete_bus admin "v1" two_buses)).
Proof.
  destruct (deactivated_bus_is_hidden admin "v1" two_buses
              (set_lastUpdated 1002
                 (set_status "active"
                    (new_bus 1000 "KIIT-01" "d1" 45 "Main Campus" None))))
    as (Hget & _ & Hdest & _).
  - eexists drivers, _. reflexivity.
  - vm_compute. reflexivity.
  - reflexivity.
  - eexists. split; [exact Hget|]. split; [reflexivity|]. apply Hdest.
Defined.




(** ** The two virtuals *)

(** The binary64 computation gives an integer nearest to the percentage
    on every pair with [1 <= capacity <= 100] and
    [0 <= occupancy <= capacity]. *)
Lemma rounds_to_nearest_checked :
  forallb (fun c => forallb (rounds_to_nearest c) (seqZ 0 (c + 1))) (seqZ 1 100)
  = true.
Proof. vm_compute. reflexivity. Qed.

(** A check that holds on the whole table holds on each of its pairs. *)
Lemma schema_range_forall (f : Z -> Z -> bool) :
  forallb (fun c => forallb (f c) (seqZ 0 (c + 1))) (seqZ 1 100) = true ->
  forall capacity occupancy,
    1 <= capacity <= 100 -> 0 <= occupancy <= capacity ->
    f capacity occupancy = true.
Proof.
  intros H capacity occupancy Hc Ho.
  rewrite forallb_forall in H.
  assert (Hin : In capacity (seqZ 1 100)).
  { apply list_elem_of_In, elem_of_seqZ. lia. }
  specialize (H _ Hin). rewrite forallb_forall in H.
  apply H. apply list_elem_of_In, elem_of_seqZ. lia.
Qed.

Lemma round_percentage_nearest occupancy capacity :
  1 <= capacity <= 100 -> 0 <= occupancy <= capacity ->
  exists k, JsMath.round (percentage occupancy capacity) = Some k
            /\ nearest_percent occupancy capacity k.
Proof.
  intros Hc Ho.
  pose proof (schema_range_forall rounds_to_nearest rounds_to_nearest_checked
                capacity occupancy Hc Ho) as H.
  unfold rounds_to_nearest in H.
  destruct (JsMath.round (percentage occupancy capacity)) as [k|]; [|done].
  exists k. split; [done|]. apply andb_prop in H as [H1 H2].
  apply Z.leb_le in H1, H2. unfold nearest_percent. lia.
Qed.

Lemma nearest_percent_bounds occupancy capacity k :
  1 <= capacity <= 100 -> 0 <= occupancy <= capacity ->
  nearest_percent occupancy capacity k ->
  0 <= k <= 100
  /\ (k = 0 <-> occupancy = 0)
  /\ (k = 100 <-> occupancy = capacity)
  /\ (90 * capacity <= 100 * occupancy -> 90 <= k).
Proof.
  unfold nearest_percent. intros Hc Ho [Hlo Hhi].
  assert (Hk0 : 0 <= k) by nia.
  assert (Hk100 : k <= 100) by nia.
  split; [lia|]. split; [|split].
  - split; [intros ->; lia | intros ->; nia].
  - split; [intros ->; lia | intros ->; nia].
  - intros Hfull. nia.
Qed.

(** X16. For a bus that passes schema validation and carries no more
    passengers than its capacity, [availableSeats] is between 0 and the
    capacity, and [occupancyPercentage] is an integer between 0 and 100 at
    most one half away from the exact percentage: it is 0 exactly when
    the bus is empty, 100 exactly when no seat is available, and at least
    90 whenever the derived tier is "Full". An exact half is not always
    rounded up: 23 passengers of 40 are 57.5 percent and are shown as 57. *)
Theorem virtuals_within_capacity (b : Bus) :
  validate b = true -> currentPassengers b <= capacity b ->
  0 <= availableSeats b <= capacity b
  /\ (exists k,
        occupancyPercentage b = Some k
        /\ nearest_percent (currentPassengers b) (capacity b) k
        /\ 0 <= k <= 100
        /\ (k = 0 <-> currentPassengers b = 0)
        /\ (k = 100 <-> availableSeats b = 0)
        /\ (deriveTier (currentPassengers b) (capacity b) = "Full" -> 90 <= k))
  /\ JsMath.round (percentage 23 40) = Some 57.
Proof.
  intros Hv Hle. destruct (validate_bounds b Hv) as [H0 Hc].
  unfold availableSeats, occupancyPercentage.
  split; [lia|]. split; [|vm_compute; reflexivity].
  destruct (round_percentage_nearest (currentPassengers b) (capacity b))
    as (k & -> & Hn); [lia..|].
  destruct (nearest_percent_bounds (currentPassengers b) (capacity b) k)
    as (Hb & Hz & Hh & Hf); [lia..|done|].
  exists k. split_and!; try done; try lia.
  - rewrite deriveTier_exact by lia. intros Hfull. apply Hf.
    by apply tier_exact_cases in Hfull as [_ ?].
Qed.

Lemma virtuals_within_capacity_witness :
  let b := set_currentPassengers 41
             (new_bus 1000 "KIIT-01" "d1" 45 "Main Campus" None) in
  0 <= availableSeats b <= 45
  /\ exists k, occupancyPercentage b = Some k /\ 90 <= k.
Proof.
  cbv zeta.
  destruct (virtuals_within_capacity
              (set_currentPassengers 41
                 (new_bus 1000 "KIIT-01" "d1" 45 "Main Campus" None))
              ltac:(vm_compute; reflexivity) ltac:(vm_compute; discriminate))
    as (Ha & (k & Hk & _ & _ & _ & _ & Hf) & _).
  split; [exact Ha|]. exists k. split; [exact Hk|].
  apply Hf. vm_compute. reflexivity.
Defined.

(** ** Tiers in order *)

Lemma tier_rank_exact occupancy capacity :
  tier_rank (tier_exact occupancy capacity)
  = if occupancy =? 0 then 0
    else if 90 * capacity <=? 100 * occupancy then 2 else 1.
Proof.
  unfold tier_exact.
  destruct (occupancy =? 0); [done|].
  by destruct (90 * capacity <=? 100 * occupancy).
Qed.

(** X17. On the capacities the schema admits and within capacity, the
    derived tier never falls when passengers board and never rises when
    the same passengers ride a bus with more seats ("Empty" below "Few
    Seats" below "Full"). *)
Theorem tier_is_monotone (occupancy occupancy' capacity capacity' : Z) :
  1 <= capacity <= capacity' -> capacity' <= 100 ->
  0 <= occupancy <= occupancy' -> occupancy' <= capacity ->
  tier_rank (deriveTier occupancy capacity)
    <= tier_rank (deriveTier occupancy' capacity)
  /\ tier_rank (deriveTier occupancy capacity')
     <= tier_rank (deriveTier occupancy capacity).
Proof.
  intros Hc Hc' Ho Ho'.
  rewrite !deriveTier_exact, !tier_rank_exact by lia.
  repeat match goal with
         | |- context [?a =? ?b] => destruct (Z.eqb_spec a b)
         | |- context [?a <=? ?b] => destruct (Z.leb_spec a b)
         end; lia.
Qed.

Lemma tier_is_monotone_witness :
  tier_rank (deriveTier 20 45) <= tier_rank (deriveTier 41 45)
  /\ tier_rank (deriveTier 41 50) <= tier_rank (deriveTier 41 45).
Proof.
  split.
  - apply (tier_is_monotone 20 41 45 45); lia.
  - apply (tier_is_monotone 41 41 45 50); lia.
Defined.

(** ** Which fields a mutation touches *)

(** X18. A committed location mutation leaves number, driver, destination,
    status, tier, capacity, passenger count, route, notes and [isActive] of
    the bus as they were; a committed status mutation leaves number,
    driver, coordinates, speed, heading, capacity, route and [isActive] as
    they were, and the destination and the notes too when the body gives
    none or an empty one. *)
Theorem mutations_touch_their_fields (now : Z) (user : User) (busId : ObjectId)
    (w : World) (bus : Bus) :
  buses w !! busId = Some bus ->
  (forall body bus' w',
     put_location now user busId body w = (Ok200 bus', w') ->
     bus' = set_lastUpdated now
              (set_heading (default 0%float (lb_heading body))
                 (set_speed (default 0%float (lb_speed body))
                    (set_coordinates (coordinates bus') bus))))
  /\ (forall body bus' w',
        put_status now user busId body w = (Ok200 bus', w') ->
        busNumber bus' = busNumber bus /\ driverId bus' = driverId bus
        /\ coordinates bus' = coordinates bus
        /\ speed bus' = speed bus /\ heading bus' = heading bus
        /\ capacity bus' = capacity bus /\ route bus' = route bus
        /\ isActive bus' = isActive bus
        /\ (sb_destination body = None \/ sb_destination body = Some "" ->
            destination bus' = destination bus)
        /\ (sb_notes body = None \/ sb_notes body = Some "" ->
            notes bus' = notes bus)).
Proof.
  intros Hbus. split.
  - intros body bus' w' Hput.
    destruct (put_location_cases now user busId body w)
      as [(? & ?)|[(_ & ? & ?)|[(b & _ & ? & ? & ?)|[(b & _ & ? & _ & ? & ?)
         |(b & b' & Hv & ? & _ & Hs & Hr)]]]]; simplify_eq; try congruence.
    rewrite Hr in Hput. injection Hput as <- <-.
    apply save_Some in Hs as [_ ->]. reflexivity.
  - intros body bus' w' Hput.
    destruct (put_status_cases now user busId body w)
      as [(? & ?)|[(_ & ? & ?)|[(b & _ & ? & ? & ?)|[(b & _ & ? & _ & ? & ?)
         |(b & b' & Hv & ? & _ & Hs & Hr)]]]]; simplify_eq; try congruence.
    rewrite Hr in Hput. injection Hput as <- <-.
    apply save_Some in Hs as [_ ->].
    unfold pre_save, status_doc, assign_status, Js.truthy_str.
    destruct (sb_currentPassengers body) as [n|],
      (sb_destination body) as [s|], (sb_notes body) as [t|];
      repeat match goal with
             | |- context [String.eqb ?x ""] => destruct (String.eqb_spec x "")
             end;
      cbn -[deriveTier];
      repeat match goal with
             | |- context [if ?c then _ else _] => destruct c
             end;
      cbn -[deriveTier]; split_and!; try done; naive_solver.
Qed.

Lemma mutations_touch_their_fields_witness :
  exists bus',
    fst (put_status 2000 driver1 "v1" (with_passengers 41) w1) = Ok200 bus'
    /\ coordinates bus' = [85.8189%float; 20.2961%float]
    /\ capacity bus' = 45.
Proof.
  destruct (mutations_touch_their_fields 2000 driver1 "v1" w1
              (new_bus 1000 "KIIT-01" "d1" 45 "Main Campus" None)
              ltac:(vm_compute; reflexivity)) as [_ Hst].
  eexists. split; [vm_compute; reflexivity|].
  destruct (Hst (with_passengers 41) _ _ ltac:(vm_compute; reflexivity))
    as (_ & _ & Hc & _ & _ & Hcap & _).
  split; [exact Hc | exact Hcap].
Defined.

(** ** [lastUpdated] *)

(** X19. If no stored bus was updated after time [t] and a request is
    handled at a clock reading that is not before [t], then no stored
    bus's [lastUpdated] goes back, and afterwards no stored bus was updated
    after that reading. A deactivation and the socket messages take no
    reading: after them no stored bus was updated after [t]. *)
Theorem lastUpdated_never_goes_back (r : Request) (w : World) (t : Z) :
  updated_by t w ->
  (forall now, clock_of r = Some now -> t <= now) ->
  (forall busId b b',
     buses w !! busId = Some b -> buses (step r w) !! busId = Some b' ->
     lastUpdated b <= lastUpdated b')
  /\ updated_by (default t (clock_of r)) (step r w).
Proof.
  unfold updated_by. intros Ht Hclock.
  assert (H : buses (step r w) = buses w
              \/ exists busId b',
                   buses (step r w) = <[busId := b']> (buses w)
                   /\ ((exists now, clock_of r = Some now /\ lastUpdated b' = now)
                       \/ exists b, buses w !! busId = Some b
                                    /\ lastUpdated b' = lastUpdated b)).
  { destruct r as [now newId body|now user busId body|now user busId body
                  |user busId| | | |]; simpl; try by left.
    - destruct (post_bus now newId body w) as [reply w'] eqn:Hp.
      destruct (post_bus_refused now newId body w) as [[bus Hb]|Hw].
      + rewrite Hp in Hb. simpl in Hb. subst reply.
        apply post_bus_created in Hp
          as (n & d & c & dst & u & _ & _ & _ & _ & _ & _ & _ & _ & -> & _ & ->).
        right. eexists _, _. split; [reflexivity|]. left. by exists now.
      + rewrite Hp in Hw. simpl in *. subst. by left.
    - destruct (put_location_cases now user busId body w)
        as [(_ & ->)|[(_ & _ & ->)|[(b & _ & _ & _ & ->)|[(b & _ & _ & _ & _ & ->)
           |(b & b' & _ & Hb & _ & [_ ->]%save_Some & ->)]]]]; try by left.
      right. eexists _, _. split; [reflexivity|]. left. exists now.
      split; [done|].
      by destruct (pre_save_keeps (location_doc now body b))
        as (_ & _ & _ & -> & _).
    - destruct (put_status_cases now user busId body w)
        as [(_ & ->)|[(_ & _ & ->)|[(b & _ & _ & _ & ->)|[(b & _ & _ & _ & _ & ->)
           |(b & b' & _ & Hb & _ & [_ ->]%save_Some & ->)]]]]; try by left.
      right. eexists _, _. split; [reflexivity|]. left. exists now.
      split; [done|].
      destruct (pre_save_keeps (status_doc now body b))
        as (_ & _ & _ & -> & _).
      unfold status_doc, assign_status.
      destruct (sb_currentPassengers body), (sb_destination body),
        (sb_notes body);
        repeat match goal with
               | |- context [Js.truthy_str ?v] => destruct (Js.truthy_str v)
               end;
        reflexivity.
    - unfold delete_bus. destruct (buses w !! busId) as [b|] eqn:Hb; [|by left].
      destruct (negb _); [by left|].
      destruct (save _) as [b'|] eqn:Hs; [|by left].
      apply save_Some in Hs as [_ ->].
      right. eexists _, _. split; [reflexivity|]. right. by exists b. }
  assert (Hmax : t <= default t (clock_of r)).
  { destruct (clock_of r) as [now|] eqn:E; simpl; [by apply Hclock | lia]. }
  destruct H as [->|(k & b1 & -> & Hcase)].
  - split.
    + intros busId b b' Hb Hb'. assert (b = b') as -> by congruence. lia.
    + intros busId b Hb. specialize (Ht busId b Hb). lia.
  - split.
    + intros busId b b' Hb Hb'.
      destruct (decide (k = busId)) as [->|Hne].
      * rewrite lookup_insert_eq in Hb'. injection Hb' as <-.
        specialize (Ht busId b Hb).
        destruct Hcase as [(now & Hnow & ->)|(b0 & Hb0 & ->)].
        -- specialize (Hclock now Hnow). lia.
        -- assert (b0 = b) as -> by congruence. lia.
      * rewrite lookup_insert_ne in Hb' by done.
        assert (b = b') as -> by congruence. lia.
    + intros busId b Hb.
      destruct (decide (k = busId)) as [->|Hne].
      * rewrite lookup_insert_eq in Hb. injection Hb as <-.
        destruct Hcase as [(now & Hnow & ->)|(b0 & Hb0 & ->)].
        -- rewrite Hnow. simpl. lia.
        -- specialize (Ht busId b0 Hb0). lia.
      * rewrite lookup_insert_ne in Hb by done.
        specialize (Ht busId b Hb). lia.
Qed.

Lemma lastUpdated_never_goes_back_witness :
  updated_by 2000 (step (PutLocation 2000 driver1 "v1" move) w1).
Proof.
  destruct (lastUpdated_never_goes_back (PutLocation 2000 driver1 "v1" move)
              w1 1000) as [_ H].
  - intros busId bus Hb.
    apply elem_of_map_to_list, list_elem_of_In in Hb. vm_compute in Hb.
    destruct Hb as [[= <- <-]|[]]. simpl. lia.
  - intros now [= <-]. lia.
  - exact H.
Defined.

(** ** The replies of a registration *)




